(** * Subnet bulk import of the mreg command-line client

    A shallow embedding of [Subnet.opt_import] (src/commands.py) and the
    properties of its reconciliation engine: parsing of the import file,
    the delete/create/update plan, the safety checks and the order of the
    remote calls. *)

From Stdlib Require Import ZArith Lia Ascii String.
From Stdlib Require SpecFloat.
From stdpp Require Import gmap strings list pretty.

Open Scope Z_scope.

(** ** Python strings

    A [string] is a sequence of characters, each one of the 256 code points
    of [ascii]; the model covers text whose code points are below 256. *)

Module PyStr.

(** [str.isspace] on one character (also the class [\s] of [re]): the
    code points 9-13, 28-32, 0x85 and 0xA0. *)
Definition isspace (c : ascii) : bool :=
  let n := nat_of_ascii c in
  ((9 <=? n) && (n <=? 13) || (28 <=? n) && (n <=? 32)
   || (n =? 133) || (n =? 160))%nat.

(** [str.isdigit] restricted to one character below 256 (class [\d]). *)
Definition isdigit (c : ascii) : bool :=
  let n := nat_of_ascii c in ((48 <=? n) && (n <=? 57))%nat.

Fixpoint lstrip (s : string) : string :=
  match s with
  | String c s' => if isspace c then lstrip s' else s
  | EmptyString => EmptyString
  end.

Fixpoint rstrip (s : string) : string :=
  match s with
  | String c s' =>
      match rstrip s' with
      | EmptyString => if isspace c then EmptyString else String c EmptyString
      | r => String c r
      end
  | EmptyString => EmptyString
  end.

(** [s.strip()] *)
Definition strip (s : string) : string := rstrip (lstrip s).

(** [s.split(sep)] for a one-character separator: never the empty list. *)
Fixpoint split (sep : ascii) (s : string) : list string :=
  match s with
  | EmptyString => [EmptyString]
  | String c s' =>
      if decide (c = sep) then EmptyString :: split sep s'
      else match split sep s' with
           | h :: t => String c h :: t
           | [] => [String c EmptyString]
           end
  end.



End PyStr.

(** ** The line pattern

    The pattern given to [re.match] for every line of the import file is,
    piece by piece: the group [range], made of [\d+ . \d+ . \d+ . \d+ \/ \d+]
    (the dots are unescaped: any character but a newline); then [\s+] and a
    colon; the group [tags], a greedy run of any characters; a colon and a
    bar; the group [description], a greedy run of any characters. It is
    modelled as a backtracking matcher in continuation-passing style: a
    matcher consumes a prefix of the input and hands the rest to its
    continuation; a greedy repetition tries the longest prefix first.
    [re.match] anchors the pattern at the start of the line only. *)

Module Re.

Inductive cls := Digit | Space | Dot | Lit (c : ascii).

Definition accepts (k : cls) (c : ascii) : bool :=
  match k with
  | Digit => PyStr.isdigit c
  | Space => PyStr.isspace c
  | Dot => negb (bool_decide (c = "010"%char))
  | Lit c' => bool_decide (c = c')
  end.

Section matchers.
Context {R : Type}.

Definition matcher := string → (string → option R) → option R.

Definition one (k : cls) : matcher := λ s cont,
  match s with
  | String c s' => if accepts k c then cont s' else None
  | EmptyString => None
  end.

(** [k*], greedy *)
Fixpoint star (k : cls) (s : string) (cont : string → option R) : option R :=
  match s with
  | String c s' =>
      if accepts k c
      then match star k s' cont with
           | Some r => Some r
           | None => cont s
           end
      else cont s
  | EmptyString => cont s
  end.

(** [k+], greedy *)
Definition plus (k : cls) : matcher := λ s cont,
  one k s (λ s', star k s' cont).

Definition seq (m1 m2 : matcher) : matcher := λ s cont,
  m1 s (λ s', m2 s' cont).

End matchers.

(** The text consumed between [s] and its suffix [rest]. *)
Definition consumed (s rest : string) : string :=
  String.substring 0 (String.length s - String.length rest) s.

(** A capturing group around [m]. *)
Definition group {R} (m : @matcher R) (s : string)
    (cont : string → string → option R) : option R :=
  m s (λ rest, cont (consumed s rest) rest).

(** [\d+.\d+.\d+.\d+\/\d+] *)
Definition range_re {R} : @matcher R :=
  seq (plus Digit) (seq (one Dot) (seq (plus Digit) (seq (one Dot)
    (seq (plus Digit) (seq (one Dot) (seq (plus Digit)
      (seq (one (Lit "/"%char)) (plus Digit)))))))).

(** The groups [range], [tags] and [description] of a matching line. *)
Definition match_line (line : string) : option (string * string * string) :=
  group range_re line (λ range s1,
    plus Space s1 (λ s2,
      one (Lit ":"%char) s2 (λ s3,
        group (star Dot) s3 (λ tags s4,
          one (Lit ":"%char) s4 (λ s5,
            one (Lit "|"%char) s5 (λ s6,
              group (star Dot) s6 (λ description _,
                Some (range, tags, description)))))))).

End Re.

(** ** Binary64 arithmetic

    [len(..) / len(..)] is Python's true division of two integers: the
    quotient correctly rounded (to nearest, ties to even) to a binary64
    float, or [ZeroDivisionError]. Only non-negative finite values occur
    here; a float is a pair mantissa, exponent with value [mant * 2^expo]. *)

Module Float.

Record float := mk { mant : Z; expo : Z }.

(** [a / b] rounded to the nearest integer, ties to even ([0 <= a], [0 < b]). *)
Definition rne_div (a b : Z) : Z :=
  let q := a / b in
  let r := a mod b in
  if 2 * r <? b then q
  else if b <? 2 * r then q + 1
  else if Z.even q then q else q + 1.

(** [2^k] for [0 <= k], and 1 below: scaling by [shift k] on one side and
    by [shift (- k)] on the other multiplies a ratio by [2^k], whatever the
    sign of [k]. *)
Definition shift (k : Z) : Z := 2 ^ Z.max 0 k.

(** [floor (log2 (a / b))] for [0 < a], [0 < b]. *)
Definition ilog2_ratio (a b : Z) : Z :=
  let d := Z.log2 a - Z.log2 b in
  if b * shift d <=? a * shift (- d) then d else d - 1.

(** The binary64 nearest to the rational [a / b], with a mantissa of 53
    bits ([0 <= a], [0 < b]). *)
Definition of_ratio (a b : Z) : float :=
  if a =? 0 then mk 0 0
  else
    let e := ilog2_ratio a b - 52 in
    mk (rne_div (a * shift (- e)) (b * shift e)) e.

(** [x < y] *)
Definition ltb (x y : float) : bool :=
  let e := Z.min (expo x) (expo y) in
  mant x * 2 ^ (expo x - e) <? mant y * 2 ^ (expo y - e).

(** The literal [0.2]: the binary64 nearest to 2/10. *)
Definition lit_0_2 : float := of_ratio 2 10.

(** [a / b] on integers; [None] is [ZeroDivisionError]. *)
Definition truediv (a b : Z) : option float :=
  if b =? 0 then None else Some (of_ratio a b).

(** The same value as a [spec_float] of the Standard Library. *)
Definition to_spec (x : float) : SpecFloat.spec_float :=
  match mant x with
  | Zpos m => SpecFloat.S754_finite false m (expo x)
  | _ => SpecFloat.S754_zero false
  end.

(** The Standard Library's binary64 division of two integers that are
    binary64 values. *)
Definition spec_div (a b : Z) : SpecFloat.spec_float :=
  SpecFloat.SFdiv 53 1024
    (SpecFloat.binary_normalize 53 1024 a 0 false)
    (SpecFloat.binary_normalize 53 1024 b 0 false).

End Float.

(** ** Networks of the [ipaddress] module *)

Module Ip.

Record IPv4Network := mk { network_address : Z; prefixlen : Z }.

Definition broadcast_address (n : IPv4Network) : Z :=
  network_address n + 2 ^ (32 - prefixlen n) - 1.

(** [addr in n] *)
Definition contains (n : IPv4Network) (addr : Z) : bool :=
  (network_address n <=? addr) && (addr <=? broadcast_address n).

(** [self.overlaps(other)] *)
Definition overlaps (self other : IPv4Network) : bool :=
  contains other (network_address self)
  || (contains other (broadcast_address self)
      || (contains self (network_address other)
          || contains self (broadcast_address other))).

(** Decimal value of a string of ASCII digits; [None] when the string is
    empty or holds another character. *)
Fixpoint digits_value (acc : Z) (s : string) : option Z :=
  match s with
  | EmptyString => Some acc
  | String c s' =>
      if PyStr.isdigit c
      then digits_value (10 * acc + (Z.of_nat (nat_of_ascii c) - 48)) s'
      else None
  end.

Definition parse_decimal (s : string) : option Z :=
  match s with
  | EmptyString => None
  | _ => digits_value 0 s
  end.

(** One octet of a dotted quad: at most three digits, no leading zero,
    at most 255. *)
Definition parse_octet (s : string) : option Z :=
  match parse_decimal s with
  | Some v =>
      if (String.length s <=? 3)%nat
         && negb ((1 <? String.length s)%nat && bool_decide (String.get 0 s = Some "0"%char))
         && (v <=? 255)
      then Some v else None
  | None => None
  end.

Definition parse_address (s : string) : option Z :=
  match PyStr.split "." s with
  | [a; b; c; d] =>
      match parse_octet a, parse_octet b, parse_octet c, parse_octet d with
      | Some a, Some b, Some c, Some d =>
          Some (((a * 256 + b) * 256 + c) * 256 + d)
      | _, _, _, _ => None
      end
  | _ => None
  end.

Definition parse_prefixlen (s : string) : option Z :=
  match parse_decimal s with
  | Some v => if v <=? 32 then Some v else None
  | None => None
  end.

(** [ipaddress.ip_network(s)] (strict) on a dotted quad with an optional
    prefix length; [None] is [ValueError]. *)
Definition ip_network (s : string) : option IPv4Network :=
  match PyStr.split "/" s with
  | [a] =>
      match parse_address a with
      | Some addr => Some (mk addr 32)
      | None => None
      end
  | [a; p] =>
      match parse_address a, parse_prefixlen p with
      | Some addr, Some len =>
          if addr mod 2 ^ (32 - len) =? 0 then Some (mk addr len) else None
      | _, _ => None
      end
  | _ => None
  end.

End Ip.

(** ** Data model *)

(** The values the compared fields take: [None] (JSON null), an integer or
    a string. [!=] on them is inequality of the values. *)
Inductive value := VNone | VInt (n : Z) | VStr (s : string).

Global Instance value_eq_dec : EqDecision value.
Proof. solve_decision. Defined.

(** A subnet as a dict with the keys [opt_import] reads or writes; the
    server's records carry more keys, none of which is read here. *)
Record subnet := mk_subnet {
  range : string;
  description : value;
  vlan : value;
  category : value;
  location : value;
  frozen : bool
}.

(** The calls to the transport helpers [delete], [post] and [patch]:
    the URL and the keyword arguments. [post] is given the six keys of an
    imported record; [patch] is given a list of fields. *)
Inductive request :=
| DELETE (url : string)
| POST (url : string) (kwargs : subnet)
| PATCH (url : string) (kwargs : list (string * value)).

Inductive exn :=
| TypeError | ValueError | KeyError | ZeroDivisionError | OSError
| CliWarning (msg : string).

Inductive outcome (A : Type) :=
| Return (a : A)
| Raise (e : exn).
Arguments Return {A} a.
Arguments Raise {A} e.

(** What a run leaves behind: the lines written to [subnets_import.log]
    (one entry per [write]) and the remote calls issued, both oldest first. *)
Record state := mk_state {
  log_file : list string;
  calls : list request
}.

(** Computations that write the log, issue calls and may raise; the state
    reached when an exception is raised is kept. *)
Definition M (A : Type) : Type := state → outcome A * state.

Global Instance M_ret : MRet M := λ A a st, (Return a, st).

Global Instance M_bind : MBind M := λ A B f m st,
  match m st with
  | (Return a, st') => f a st'
  | (Raise e, st') => (Raise e, st')
  end.

Definition raise {A} (e : exn) : M A := λ st, (Raise e, st).

Definition write (line : string) : M unit := λ st,
  (Return (), mk_state (log_file st ++ [line]) (calls st)).

(** A call to a transport helper is recorded; the helper is taken to
    return. *)
Definition call (r : request) : M unit := λ st,
  (Return (), mk_state (log_file st) (calls st ++ [r])).

(** [for x in xs: body], with the variables the body assigns threaded
    through as [s]. *)
Fixpoint for_ {A S} (xs : list A) (body : S → A → M S) (s : S) : M S :=
  match xs with
  | [] => mret s
  | x :: xs' => s' ← body s x; for_ xs' body s'
  end.

(** [d[k]] on a dict *)
Definition getitem {V} (d : gmap string V) (k : string) : M V :=
  match d !! k with
  | Some v => mret v
  | None => raise KeyError
  end.

(** [s[key]] on a string [s] with a string [key]: string indices must be
    integers. *)
Definition str_getitem (s key : string) : M string := raise TypeError.

(** Modelled from the spec: [cli_warning] lives in the module [log], which
    is not among the sources. The spec describes its calls as
    exception-as-abort: the message is raised and the operation ends. *)
Definition cli_warning {A} (msg : string) : M A := raise (CliWarning msg).

(** ** The environment of a run

    What [opt_import] obtains from outside: the configuration, the answer
    typed at the prompt, the files, the helpers of the module [util], the
    server's answer to [GET /subnets], the [ipaddress] parser, and the
    order in which a set is iterated. The prompt is taken to be answered,
    a file that opens to be read to its end, and the helpers to return:
    what the run does when one of them raises is not described here. *)
Record Env := mk_Env {
  server_ip : string;
  server_port : string;
  tag_file : string;
  input : string;
  open_r : string → option (list string);
  get_vlan_mapping : gmap string value;
  is_valid_location_tag : string → bool;
  is_valid_category_tag : string → bool;
  get_subnets : list subnet;
  get_subnet_used_list : string → list string;
  ip_network : string → option Ip.IPv4Network;
  iter : gset string → list string;
  iter_perm : ∀ X, iter X ≡ₚ elements X
}.

Definition nl : string := String "010"%char EmptyString.

Section import.
Context (w : Env).

(** The loop over the tags of one line. [info] is the pair of
    [info['location']] and [info['category']]. *)
Definition read_tag (line_number : nat) (info : option string * string)
    (tag : string) : M (option string * string) :=
  if is_valid_location_tag w tag then mret (Some tag, info.2)
  else if is_valid_category_tag w tag
  then mret (info.1, PyStr.strip (info.2 +:+ " " +:+ tag))
  else
    write (pretty line_number +:+ ": Invalid tag " +:+ tag
           +:+ ". Valid tags can be found in " +:+ tag_file w +:+ nl);;
    mret info.

(** The record built from a matching line. *)
Definition make_data (vlans : gmap string value) (range description : string)
    (info : option string * string) : subnet :=
  {| range := range;
     description := VStr (PyStr.strip description);
     vlan := match vlans !! range with Some v => v | None => VInt 0 end;
     category := if decide (info.2 = EmptyString) then VNone else VStr info.2;
     location := match info.1 with
                 | Some l => if decide (l = EmptyString) then VNone else VStr l
                 | None => VNone
                 end;
     frozen := false |}.

(** The body of [for line in file]; the state of the loop is
    [line_number] and [import_data]. *)
Definition read_line (vlans : gmap string value)
    (acc : nat * gmap string subnet) (line : string)
    : M (nat * gmap string subnet) :=
  let line_number := S acc.1 in
  match Re.match_line line with
  | Some (range, tags, description) =>
      let tags := PyStr.split ":" tags in
      info ← for_ tags (read_tag line_number) (None, EmptyString);
      let data := make_data vlans range description info in
      mret (line_number, <[range := data]> acc.2)
  | None => mret (line_number, acc.2)
  end.

Definition read_file (vlans : gmap string value) (lines : list string)
    : M (gmap string subnet) :=
  acc ← for_ lines (read_line vlans) (0%nat, ∅);
  mret acc.2.

(** [{subnet['range']: subnet for subnet in res}] *)
Definition index_by_range (res : list subnet) : gmap string subnet :=
  foldl (λ d subnet, <[range subnet := subnet]> d) ∅ res.

Definition subnet_url (subnet : string) : string :=
  "http://" +:+ server_ip w +:+ ":" +:+ server_port w +:+ "/subnets/" +:+ subnet.

(** Check if subnets marked for deletion have any addresses in use. *)
Definition check_in_use (ERROR : bool) (subnet : string) : M bool :=
  let used_list := get_subnet_used_list w subnet in
  match used_list with
  | _ :: _ =>
      r ← str_getitem subnet "range";
      write ("WARNING: {'" +:+ r
             +:+ "'} contains addresses that are in use. Remove hosts before deletion" +:+ nl);;
      mret true
  | [] => mret ERROR
  end.

Definition parse_network (s : string) : M Ip.IPv4Network :=
  match ip_network w s with
  | Some n => mret n
  | None => raise ValueError
  end.

(** Check if subnets marked for creation have any overlap with existing
    subnets: the inner loop runs over [subnets_patch]. *)
Definition check_overlap (subnets_patch : gset string) (ERROR : bool)
    (subnet_new : string) : M bool :=
  subnet_object ← parse_network subnet_new;
  for_ (iter w subnets_patch) (λ ERROR subnet_existing,
    other ← parse_network subnet_existing;
    if Ip.overlaps subnet_object other
    then
      write ("ERROR: Overlap found between new subnet " +:+ subnet_new
             +:+ " and existing subnet " +:+ subnet_existing +:+ nl);;
      mret true
    else mret ERROR) ERROR.

(** The four compared fields of an imported and a current record differ. *)
Definition differs (new_data current_data : subnet) : bool :=
  bool_decide (description new_data ≠ description current_data)
  || bool_decide (vlan new_data ≠ vlan current_data)
  || bool_decide (category new_data ≠ category current_data)
  || bool_decide (location new_data ≠ location current_data).

(** Check which existing subnets need to be patched. *)
Definition check_patch (current_subnets import_data : gmap string subnet)
    (subnets_patch : gset string) (subnet : string) : M (gset string) :=
  current_data ← getitem current_subnets subnet;
  new_data ← getitem import_data subnet;
  if differs new_data current_data
  then mret (subnets_patch ∪ {[subnet]})
  else mret subnets_patch.

Definition do_delete (_ : unit) (subnet : string) : M unit :=
  let url := subnet_url subnet in
  call (DELETE url);;
  write ("DELETE " +:+ url +:+ nl).

Definition do_post (import_data : gmap string subnet) (_ : unit)
    (subnet : string) : M unit :=
  let url := subnet_url "" in
  data ← getitem import_data subnet;
  call (POST url data);;
  write ("POST " +:+ url +:+ " - " +:+ subnet +:+ nl).

Definition patch_kwargs (data : subnet) : list (string * value) :=
  [("description", description data); ("vlan", vlan data);
   ("category", category data); ("location", location data)]%string.

Definition do_patch (import_data : gmap string subnet) (_ : unit)
    (subnet : string) : M unit :=
  let url := subnet_url subnet in
  data ← getitem import_data subnet;
  call (PATCH url (patch_kwargs data));;
  write ("PATCH " +:+ url +:+ nl).

(** [(len(subnets_delete) + len(subnets_patch)) / len(current_subnets.keys()) > 0.2] *)
Definition over_threshold (subnets_delete subnets_patch : gset string)
    (current_subnets : gmap string subnet) : M bool :=
  match Float.truediv (Z.of_nat (size subnets_delete) + Z.of_nat (size subnets_patch))
                      (Z.of_nat (size (dom current_subnets))) with
  | Some ratio => mret (Float.ltb Float.lit_0_2 ratio)
  | None => raise ZeroDivisionError
  end.

(** [input("Enter path to import file>") if len(args) < 1 else args[0]] *)
Definition input_file (args : list string) : string :=
  match args with
  | [] => input w
  | a :: _ => a
  end.

(** First part of [opt_import]: read in the new subnet structure from
    the file. *)
Definition read_phase (args : list string) : M (gmap string subnet) :=
  let input_file := input_file args in
  let vlans := get_vlan_mapping w in
  write ("------ READ FROM " +:+ input_file +:+ " START ------" +:+ nl);;
  import_data ←
    match open_r w input_file with
    | Some file => read_file vlans file
    | None => raise OSError
    end;
  write ("------ READ FROM " +:+ input_file +:+ " END ------" +:+ nl);;
  mret import_data.

(** The two conditions under which [opt_import] gives up before any
    request: the [ERROR] flag, then the share of changed subnets without
    [y] among the arguments. *)
Definition gate (args : list string) (ERROR : bool)
    (subnets_delete subnets_patch : gset string)
    (current_subnets : gmap string subnet) : M unit :=
  (if ERROR
   then cli_warning "Errors detected during setup. Check subnets_import.log for details"
   else mret ());;
  over ← over_threshold subnets_delete subnets_patch current_subnets;
  if over && negb (bool_decide ("y"%string ∈ args))
  then cli_warning "WARNING: The import will change over 20% of the subnets. Requires force"
  else mret ().

(** The three loops that issue the requests, between the two lines that
    bracket them in the log. *)
Definition apply_requests (import_data : gmap string subnet)
    (subnets_delete subnets_post subnets_patch : gset string) : M unit :=
  write ("------ API REQUESTS START ------" +:+ nl);;
  for_ (iter w subnets_delete) do_delete ();;
  for_ (iter w subnets_post) (do_post import_data) ();;
  for_ (iter w subnets_patch) (do_patch import_data) ();;
  write ("------ API REQUESTS END ------" +:+ nl).

(** Second part of [opt_import]: fetch the existing subnets, compute the
    sets, run the checks and issue the requests. *)
Definition reconcile (args : list string) (import_data : gmap string subnet)
    : M unit :=
  let ERROR := false in
  let res := get_subnets w in
  let current_subnets := index_by_range res in
  let subnets_delete := dom current_subnets ∖ dom import_data in
  let subnets_post := dom import_data ∖ dom current_subnets in
  let subnets_patch : gset string := ∅ in
  let subnets_ignore := dom import_data ∩ dom current_subnets in
  ERROR ← for_ (iter w subnets_delete) check_in_use ERROR;
  ERROR ← for_ (iter w subnets_post) (check_overlap subnets_patch) ERROR;
  subnets_patch ←
    for_ (iter w subnets_ignore) (check_patch current_subnets import_data)
      subnets_patch;
  gate args ERROR subnets_delete subnets_patch current_subnets;;
  apply_requests import_data subnets_delete subnets_post subnets_patch.

Definition opt_import (args : list string) : M unit :=
  import_data ← read_phase args;
  reconcile args import_data.

(** The sets of [opt_import] on their own: the three set expressions and
    the loop that fills [subnets_patch], without the checks that the
    routine runs in between. *)
Definition diff (current_subnets import_data : gmap string subnet)
    : M (gset string * gset string * gset string) :=
  let subnets_delete := dom current_subnets ∖ dom import_data in
  let subnets_post := dom import_data ∖ dom current_subnets in
  let subnets_patch : gset string := ∅ in
  let subnets_ignore := dom import_data ∩ dom current_subnets in
  subnets_patch ←
    for_ (iter w subnets_ignore) (check_patch current_subnets import_data)
      subnets_patch;
  mret (subnets_delete, subnets_post, subnets_patch).

(** A run starts with a truncated log and no call issued. *)
Definition run (args : list string) : outcome unit * state :=
  opt_import args (mk_state [] []).

(** The server's inventory as [opt_import] indexes it. *)
Definition observed : gmap string subnet := index_by_range (get_subnets w).

End import.

(** ** The plan and the parsed line, in the words of the specification *)

Section specification.
Context (w : Env).

(** One of [description], [vlan], [category], [location] differs between
    the imported and the observed record of the range [r]. *)
Definition changed (O I : gmap string subnet) (r : string) : Prop :=
  ∃ cur new, O !! r = Some cur ∧ I !! r = Some new ∧
    (description new ≠ description cur ∨ vlan new ≠ vlan cur
     ∨ category new ≠ category cur ∨ location new ≠ location cur).

(** The imported and the observed inventory agree: same ranges, and the
    same four fields on every range. *)
Definition same_inventory (O I : gmap string subnet) : Prop :=
  dom O = dom I ∧
  ∀ r cur new, O !! r = Some cur → I !! r = Some new →
    description new = description cur ∧ vlan new = vlan cur
    ∧ category new = category cur ∧ location new = location cur.

Inductive tag_kind := LocationTag | CategoryTag | Unrecognized.

Global Instance tag_kind_eq_dec : EqDecision tag_kind.
Proof. solve_decision. Defined.

(** The tag resolver: the location vocabulary is asked first. *)
Definition classify (tag : string) : tag_kind :=
  if is_valid_location_tag w tag then LocationTag
  else if is_valid_category_tag w tag then CategoryTag
  else Unrecognized.

Definition tags_of_kind (k : tag_kind) (tags : list string) : list string :=
  filter (λ tag, classify tag = k) tags.

(** The assignment to [info['category']] for one category tag. *)
Definition add_category (cat tag : string) : string :=
  PyStr.strip (cat +:+ " " +:+ tag).

(** The diagnostic written for an unrecognized tag. *)
Definition invalid_tag (line_number : nat) (tag : string) : string :=
  pretty line_number +:+ ": Invalid tag " +:+ tag
  +:+ ". Valid tags can be found in " +:+ tag_file w +:+ nl.



(** The body of a [PATCH] holds only fields whose imported value differs
    from the observed one. *)
Definition only_changed_fields (cur : subnet) (kwargs : list (string * value)) : Prop :=
  ∀ v, (("description"%string, v) ∈ kwargs → v ≠ description cur)
     ∧ (("vlan"%string, v) ∈ kwargs → v ≠ vlan cur)
     ∧ (("category"%string, v) ∈ kwargs → v ≠ category cur)
     ∧ (("location"%string, v) ∈ kwargs → v ≠ location cur).

(** Every [PATCH] of the run holds only changed fields. *)
Definition patches_only_changed (args : list string) : Prop :=
  ∀ url kwargs r cur,
    PATCH url kwargs ∈ calls (run w args).2 →
    url = subnet_url w r →
    observed w !! r = Some cur →
    only_changed_fields cur kwargs.

(** The calls [cs] are one call per range of the set [X], each related to
    its range by [R]. *)
Definition one_per_range (X : gset string) (R : string → request → Prop)
    (cs : list request) : Prop :=
  ∃ xs, xs ≡ₚ elements X ∧ Forall2 R xs cs.

Definition delete_call (subnet : string) (c : request) : Prop :=
  c = DELETE (subnet_url w subnet).

(** The phase of a call: deletes, then creates, then updates. *)
Definition phase (c : request) : nat :=
  match c with
  | DELETE _ => 0
  | POST _ _ => 1
  | PATCH _ _ => 2
  end.

Definition delete_calls (subnets : list string) : list request :=
  (λ subnet, DELETE (subnet_url w subnet)) <$> subnets.

Definition post_call (import_data : gmap string subnet) (subnet : string)
    (c : request) : Prop :=
  ∃ data, import_data !! subnet = Some data ∧ c = POST (subnet_url w "") data.

Definition patch_call (import_data : gmap string subnet) (subnet : string)
    (c : request) : Prop :=
  ∃ data, import_data !! subnet = Some data
    ∧ c = PATCH (subnet_url w subnet) (patch_kwargs data).

End specification.

(** ** Concrete environments *)

Definition mk_env (locations categories : list string) (lines : list string)
    (res : list subnet) (used : string → list string) : Env :=
  {| server_ip := "localhost";
     server_port := "8000";
     tag_file := "tags.txt";
     input := "subnets.txt";
     open_r := λ path, if decide (path = "subnets.txt"%string) then Some lines else None;
     get_vlan_mapping := ∅;
     is_valid_location_tag := λ tag, bool_decide (tag ∈ locations);
     is_valid_category_tag := λ tag, bool_decide (tag ∈ categories);
     get_subnets := res;
     get_subnet_used_list := used;
     ip_network := Ip.ip_network;
     iter := elements;
     iter_perm := λ X, reflexivity (elements X) |}.

Definition locations : list string := ["oslo"; "bergen"]%string.
Definition categories : list string := ["office"; "lab"]%string.

Definition campus : subnet :=
  mk_subnet "10.0.0.0/16" (VStr "campus") (VInt 0) (VStr "office") (VStr "oslo") false.

Definition campus_line : string := "10.0.0.0/16 :oslo:office:|campus" +:+ nl.
Definition lab_line : string := "10.0.2.0/24 :bergen:lab:|new lab" +:+ nl.

(** The server has 10.0.0.0/16; the file keeps it and adds 10.0.2.0/24. *)
Definition overlap_env : Env :=
  mk_env locations categories [campus_line; lab_line] [campus] (λ _, []).

(** The server has no subnet at all. *)
Definition empty_env : Env :=
  mk_env locations categories [lab_line] [] (λ _, []).

(** The server has 10.0.0.0/16, with a host on it; the file drops it. *)
Definition in_use_env : Env :=
  mk_env locations categories [] [campus] (λ _, ["10.0.0.1"%string]).

(** The server has 10.0.0.0/16, unused; the file drops it. *)
Definition drop_env : Env :=
  mk_env locations categories [] [campus] (λ _, []).

(** The file changes the description of 10.0.0.0/16 and nothing else. *)
Definition rename_env : Env :=
  mk_env locations categories ["10.0.0.0/16 :oslo:office:|main campus" +:+ nl]
    [campus] (λ _, []).

(** The server has 10.0.0.0/16 and 10.0.1.0/24, both unused; the file
    changes the description of the first, drops the second and adds
    10.0.2.0/24. *)
Definition annex : subnet :=
  mk_subnet "10.0.1.0/24" (VStr "annex") (VInt 0) (VStr "office") (VStr "bergen") false.

Definition three_phase_env : Env :=
  mk_env locations categories
    ["10.0.0.0/16 :oslo:office:|main campus" +:+ nl; lab_line]
    [campus; annex] (λ _, []).

(** The file is what the server has. *)
Definition same_env : Env :=
  mk_env locations categories [campus_line] [campus] (λ _, []).



Definition init : state := mk_state [] [].

(** The message of the second [cli_warning] of the gate. *)
Definition requires_force : string :=
  "WARNING: The import will change over 20% of the subnets. Requires force".

(** ** Further inputs of the import *)

(** The tags of a line, resolved: [info] after the loop over the tags. *)
Definition resolved (w : Env) (tags : string) : option string * string :=
  (last (tags_of_kind w LocationTag (PyStr.split ":" tags)),
   foldl add_category EmptyString (tags_of_kind w CategoryTag (PyStr.split ":" tags))).

Definition old_lab_line : string := "10.0.2.0/24 :oslo:office:|old lab" +:+ nl.
Definition junk_line : string := "# subnets of the lab" +:+ nl.
Definition typo_line : string := "10.0.3.0/24 :bergen:labb:|annex" +:+ nl.

(** A new range with host bits set, which [ip_network] refuses. *)
Definition host_bits_env : Env :=
  mk_env locations categories
    [campus_line; "10.0.2.1/24 :bergen:lab:|new lab" +:+ nl] [campus] (λ _, []).

(** ** The other commands

    The options of [CommandBase], [Subnet], [Host] and [History] that do
    without the parts of [util] whose results they take apart: what a
    command reads from the prompt, the helpers it asks, and what it does,
    in order. *)

Module Cli.

(** The values of keyword arguments. *)
Inductive arg := ANone | ABool (b : bool) | AInt (n : Z) | AStr (s : string).

(** What a command does, as seen from outside: a prompt shown by [input],
    a call to [delete], [post] or [patch], a message given to [cli_info],
    a call to [history.redo]. *)
Inductive act :=
| Prompt (text : string)
| Delete (url : string)
| Post (url : string) (kwargs : list (string * arg))
| Patch (url : string) (kwargs : list (string * arg))
| Info (msg : string) (print_msg : bool)
| Redo (command : Z) (request : option Z).

Inductive error :=
| EOFError | IndexError | ValueError | HostNotFoundWarning
| CliWarning (msg : string).

Inductive result (A : Type) :=
| Ok (a : A)
| Err (e : error).
Arguments Ok {A} a.
Arguments Err {A} e.

(** The lines still to come on standard input, and the actions so far,
    oldest first. *)
Record console := mk_console {
  stdin : list string;
  trace : list act
}.

Definition C (A : Type) : Type := console → result A * console.

Global Instance C_ret : MRet C := λ A a c, (Ok a, c).

Global Instance C_bind : MBind C := λ A B f m c,
  match m c with
  | (Ok a, c') => f a c'
  | (Err e, c') => (Err e, c')
  end.

Definition throw {A} (e : error) : C A := λ c, (Err e, c).

Definition emit (a : act) : C unit := λ c,
  (Ok (), mk_console (stdin c) (trace c ++ [a])).

(** [input(prompt)]: the prompt is shown, then a line is read; at the end
    of the input it raises [EOFError]. *)
Definition input (prompt : string) : C string := λ c,
  match stdin c with
  | line :: rest => (Ok line, mk_console rest (trace c ++ [Prompt prompt]))
  | [] => (Err EOFError, mk_console [] (trace c ++ [Prompt prompt]))
  end.

(** [input(prompt) if len(args) < i + 1 else args[i]] *)
Definition arg_or_input (args : list string) (i : nat) (prompt : string) : C string :=
  match args !! i with
  | Some a => mret a
  | None => input prompt
  end.

(** Modelled from the spec: [cli_warning] of the module [log], as for the
    import: the message is raised and the command ends. *)
Definition cli_warning {A} (msg : string) : C A := throw (CliWarning msg).

(** [cli_info] of the module [log] reports a message; the command goes on.
    [print_msg] tells whether the call passes [True] as second argument
    (no call passes [False]). *)
Definition cli_info (msg : string) (print_msg : bool) : C unit :=
  emit (Info msg print_msg).

(** A helper of [util] that may raise: its exception or its result. *)
Definition lift {A} (r : error + A) : C A :=
  match r with
  | inl e => throw e
  | inr a => mret a
  end.

(** The part of a host's record that the commands below read: its name
    and, for each of its address records, the field [ipaddress]. *)
Record host_info := mk_host_info {
  name : string;
  ipaddress : list string
}.

(** The configuration and the helpers of [util] and of Python. *)
Record Util := mk_Util {
  server_ip : string;
  server_port : string;
  is_valid_subnet : string → bool;
  is_valid_ipv4 : string → bool;
  is_valid_category_tag : string → bool;
  is_valid_location_tag : string → bool;
  get_subnet_used_list : string → list string;
  get_subnet_range : string → error + string;
  host_info_by_name : string → error + host_info;
  host_info_by_name_or_ip : string → error + host_info;
  aliases_of_host : string → list string;
  int : string → option Z
}.

(** [int(s)]; [None] is [ValueError]. *)
Definition to_int (u : Util) (s : string) : C Z :=
  match int u s with
  | Some n => mret n
  | None => throw ValueError
  end.

(** [for x in xs: body] *)
Fixpoint for_each {A} (xs : list A) (body : A → C unit) : C unit :=
  match xs with
  | [] => mret ()
  | x :: xs' => body x;; for_each xs' body
  end.

Definition url_of (u : Util) (collection item : string) : string :=
  "http://" +:+ server_ip u +:+ ":" +:+ server_port u +:+ "/" +:+ collection
  +:+ "/" +:+ item.

(** Decimal digits of an integer with its sign, as [str.format] prints it. *)
Definition str_of_Z (n : Z) : string := pretty n.

(** The character [c] occurs in [s]. *)
Fixpoint has_char (c : ascii) (s : string) : bool :=
  match s with
  | EmptyString => false
  | String c' s' => bool_decide (c' = c) || has_char c s'
  end.

(** No action so far but prompts. *)
Definition only_prompts (c : console) : Prop :=
  ∀ a, a ∈ trace c → ∃ text, a = Prompt text.

(** The double quote. *)
Definition quote : string := String (ascii_of_nat 34) EmptyString.

End Cli.

Module Subnet.
Import Cli.
Section options.
Context (u : Util).

(** [remove <subnet>] *)
Definition opt_remove (args : list string) : C unit :=
  ip_range ← arg_or_input args 0 "Enter subnet>";
  (if is_valid_subnet u ip_range then mret () else cli_warning "Not a valid netmask");;
  let host_list := get_subnet_used_list u ip_range in
  (match host_list with
   | _ :: _ =>
       cli_warning "Subnet contains addresses that are in use. Remove hosts before deletion"
   | [] => mret ()
   end);;
  (if bool_decide ("y"%string ∈ args) then mret () else cli_warning "Must force (y)");;
  let url := url_of u "subnets" ip_range in
  emit (Delete url);;
  cli_info ("removed subnet " +:+ ip_range) true.

(** The loop [while frozen != 'y' and frozen != 'n'] of [create]: it asks
    again until the answer is one of the two, by recursion on the input
    still to come. *)
Fixpoint ask_frozen (frozen : string) (pending : list string) (shown : list act)
    : result string * console :=
  if bool_decide (frozen ≠ "y"%string ∧ frozen ≠ "n"%string)
  then
    match pending with
    | answer :: pending' =>
        ask_frozen answer pending' (shown ++ [Prompt "Is the subnet frozen? y/n>"])
    | [] =>
        (Err EOFError, mk_console [] (shown ++ [Prompt "Is the subnet frozen? y/n>"]))
    end
  else (Ok frozen, mk_console pending shown).

(** [create <subnet> <description> <vlan> <dns_delegated> <category> <location> <frozen>] *)
Definition opt_create (args : list string) : C unit :=
  ip_range ← arg_or_input args 0 "Enter subnet>";
  (if is_valid_subnet u ip_range then mret () else cli_warning "Not a valid netmask");;
  description ← arg_or_input args 1 "Enter description>";
  vlan ← arg_or_input args 2 "Enter VLAN (optional)>";
  vlan ←
    (if bool_decide (vlan ≠ EmptyString)
     then
       match int u vlan with
       | Some n => mret (AInt n)
       | None => cli_warning "Not a valid integer"
       end
     else mret (AStr vlan));
  category ← arg_or_input args 3 "Enter category (optional)>";
  (if bool_decide (category ≠ EmptyString) && negb (is_valid_category_tag u category)
   then cli_warning "Not a valid category tag" else mret ());;
  location ← arg_or_input args 4 "Enter location (optional)>";
  (if bool_decide (location ≠ EmptyString) && negb (is_valid_location_tag u location)
   then cli_warning "Not a valid location tag" else mret ());;
  frozen ← arg_or_input args 5 "Is the subnet frozen? y/n>";
  frozen ← (λ c, ask_frozen frozen (stdin c) (trace c));
  let frozen := bool_decide (frozen = "y"%string) in
  let url := url_of u "subnets" "" in
  emit (Post url [("range", AStr ip_range); ("description", AStr description);
                  ("vlan", vlan); ("category", AStr category);
                  ("location", AStr location); ("frozen", ABool frozen)]%string);;
  cli_info ("created subnet " +:+ ip_range) true.

(** [set_reserved <subnet> <number>]; of the subnet that [get_subnet]
    returns the commands read the field [range] only. *)
Definition opt_set_reserved (args : list string) : C unit :=
  ip_range ← arg_or_input args 0 "Enter subnet>";
  subnet_range ← lift (get_subnet_range u ip_range);
  reserved ← input "Enter number of reserved hosts>";
  reserved' ←
    match int u reserved with
    | Some n => mret n
    | None => cli_warning "Not a valid integer"
    end;
  let url := url_of u "subnets" subnet_range in
  emit (Patch url [("reserved"%string, AInt reserved')]);;
  cli_info ("updated reserved to '" +:+ str_of_Z reserved' +:+ "' for " +:+ subnet_range) true.

(** [set_vlan <subnet> <vlan>]: [int] is not guarded here. *)
Definition opt_set_vlan (args : list string) : C unit :=
  ip_range ← arg_or_input args 0 "Enter subnet>";
  subnet_range ← lift (get_subnet_range u ip_range);
  vlan ← arg_or_input args 1 "Enter new VLAN>";
  vlan ← to_int u vlan;
  let url := url_of u "subnets" subnet_range in
  emit (Patch url [("vlan"%string, AInt vlan)]);;
  cli_info ("updated vlan to " +:+ str_of_Z vlan +:+ " for " +:+ subnet_range) false.

(** [set_category <subnet> <category_tag>] *)
Definition opt_set_category (args : list string) : C unit :=
  ip_range ← arg_or_input args 0 "Enter subnet>";
  subnet_range ← lift (get_subnet_range u ip_range);
  category_tag ← arg_or_input args 1 "Enter new category tag>";
  (if is_valid_category_tag u category_tag then mret ()
   else cli_warning "Not a valid category tag");;
  let url := url_of u "subnets" subnet_range in
  emit (Patch url [("category"%string, AStr category_tag)]);;
  cli_info ("updated category tag to '" +:+ category_tag +:+ "' for " +:+ subnet_range) true.

End options.
End Subnet.

Module Host.
Import Cli.
Section options.
Context (u : Util).

(** [remove <name|ip>] *)
Definition opt_remove (args : list string) : C unit :=
  name_or_ip ← arg_or_input args 0 "Enter name or ip> ";
  info ← lift (host_info_by_name_or_ip u name_or_ip);
  (if bool_decide (1 < length (ipaddress info))%nat && negb (bool_decide ("y"%string ∈ args))
   then cli_warning "{} has multiple ipaddresses, must force" else mret ());;
  let aliases := aliases_of_host u (name info) in
  (match aliases with
   | _ :: _ =>
       if negb (bool_decide ("y"%string ∈ args))
       then cli_warning (name info +:+ " has " +:+ pretty (length aliases)
                         +:+ " aliases, must force")
       else
         for_each aliases (λ alias,
           let url := url_of u "hosts" alias in
           emit (Delete url);;
           cli_info ("deleted alias host " +:+ alias +:+ " when removing " +:+ name info)
                    false)
   | [] => mret ()
   end);;
  let url := url_of u "hosts" (name info) in
  emit (Delete url);;
  cli_info ("removed " +:+ name info) true.

(** What the loop over the aliases does: for each alias, in order, a
    [delete] and a message. *)
Definition alias_removal (host : string) (alias : string) : list act :=
  [Delete (url_of u "hosts" alias);
   Info ("deleted alias host " +:+ alias +:+ " when removing " +:+ host) false].

(** The loop that looks for [ip] among the address records. *)
Fixpoint owns (records : list string) (ip : string) : bool :=
  match records with
  | [] => false
  | rec :: records' => if bool_decide (rec = ip) then true else owns records' ip
  end.

(** [a_remove <name> <ip>] *)
Definition opt_a_remove (args : list string) : C unit :=
  '(name, ip) ←
    match args with
    | name :: ip :: _ => mret (name, ip)
    | _ =>
        name ← arg_or_input args 0 "Enter host name> ";
        ip ← input "Enter ip> ";
        mret (name, ip)
    end;
  (if is_valid_ipv4 u ip then mret ()
   else cli_warning ("not a valid ipv4: " +:+ quote +:+ ip +:+ quote));;
  info ← lift (host_info_by_name u name);
  let found := owns (ipaddress info) ip in
  (if found then mret ()
   else cli_warning (ip +:+ " is not owned by " +:+ Cli.name info));;
  let url := url_of u "ipaddresses" ip in
  emit (Delete url);;
  cli_info ("removed ip " +:+ ip +:+ " from " +:+ Cli.name info) false.

End options.
End Host.

Module History.
Import Cli.
Section options.
Context (u : Util).

(** [redo <history-number>] *)
Definition opt_redo (args : list string) : C unit :=
  match args with
  | [] => throw IndexError
  | a :: _ =>
      match PyStr.split "." a with
      | [] => throw IndexError
      | [command] =>
          n ← to_int u command;
          emit (Redo n None)
      | command :: request :: _ =>
          n ← to_int u command;
          m ← to_int u request;
          emit (Redo n (Some m))
      end
  end.

End options.
End History.

Module CommandBase.

(** A member of a command object as [inspect.getmembers] lists it: the
    attribute name, whether the value is a bound method, and the value's
    [__name__]. *)
Record member := mk_member {
  attr : string;
  is_method : bool;
  __name__ : string
}.

(** [re.match("^opt_.*$", name)]: the prefix, then anything but a newline
    up to the end, or up to a newline that ends the string. *)
Definition matches_opt (name : string) : bool :=
  match
    Re.one (Re.Lit "o"%char) name (λ s1,
      Re.one (Re.Lit "p"%char) s1 (λ s2,
        Re.one (Re.Lit "t"%char) s2 (λ s3,
          Re.one (Re.Lit "_"%char) s3 (λ s4,
            Re.star Re.Dot s4 (λ rest,
              if bool_decide (rest = EmptyString ∨ rest = nl) then Some () else None)))))
  with
  | Some _ => true
  | None => false
  end.

Definition _is_option (value : member) : bool :=
  if is_method value then matches_opt (__name__ value) else false.

(** [inspect.getmembers(self, predicate=self._is_option)], given the
    members in the order of [getmembers]. *)
Definition _option_methods (members : list member) : list member :=
  filter (λ m, _is_option m = true) members.

(** [s.split(sep, maxsplit=1)] *)
Fixpoint split_once (sep : ascii) (s : string) : list string :=
  match s with
  | EmptyString => [EmptyString]
  | String c s' =>
      if decide (c = sep) then [EmptyString; s']
      else match split_once sep s' with
           | h :: t => String c h :: t
           | [] => [String c EmptyString]
           end
  end.

(** [options]: [None] is the [IndexError] of [split(...)[1]]. *)
Fixpoint options_of (methods : list member) : option (list string) :=
  match methods with
  | [] => Some []
  | m :: methods' =>
      match split_once "_" (attr m) !! 1%nat with
      | Some o =>
          match options_of methods' with
          | Some os => Some (o :: os)
          | None => None
          end
      | None => None
      end
  end.

Definition options (members : list member) : option (list string) :=
  options_of (_option_methods members).

(** The loop of [method] and [opt_help]: the first option method whose
    attribute name is ["opt_" + opt]. *)
Fixpoint find_option (methods : list member) (opt : string) : option member :=
  match methods with
  | [] => None
  | m :: methods' =>
      if bool_decide (attr m = "opt_" +:+ opt) then Some m
      else find_option methods' opt
  end.

(** [method]: the method found, or the message given to [cli_error]. *)
Definition method (members : list member) (opt : string) : member + string :=
  match find_option (_option_methods members) opt with
  | Some m => inl m
  | None => inr ("unknown option: " +:+ opt)
  end.

End CommandBase.

(** ** A concrete server for the other commands *)

(** A decimal string of ASCII digits as an integer. *)
Definition decimal (s : string) : option Z := Ip.parse_decimal s.

Definition mail_host : Cli.host_info :=
  Cli.mk_host_info "mail.example.org" ["10.0.0.5"; "10.0.0.6"]%string.

Definition www_host : Cli.host_info :=
  Cli.mk_host_info "www.example.org" ["10.0.0.7"]%string.

Definition sample_hosts (s : string) : Cli.error + Cli.host_info :=
  if decide (s = "mail"%string ∨ s = "mail.example.org"%string) then inr mail_host
  else if decide (s = "www"%string ∨ s = "www.example.org"%string) then inr www_host
  else inl Cli.HostNotFoundWarning.

Definition sample_util : Cli.Util :=
  {| Cli.server_ip := "localhost";
     Cli.server_port := "8000";
     Cli.is_valid_subnet := λ s, bool_decide (is_Some (Ip.ip_network s));
     Cli.is_valid_ipv4 := λ s, bool_decide (is_Some (Ip.parse_address s));
     Cli.is_valid_category_tag := λ tag, bool_decide (tag ∈ categories);
     Cli.is_valid_location_tag := λ tag, bool_decide (tag ∈ locations);
     Cli.get_subnet_used_list := λ s,
       if decide (s = "10.0.0.0/16"%string) then ["10.0.0.5"; "10.0.0.6"]%string else [];
     Cli.get_subnet_range := λ s,
       if decide (s = "10.0.0.0/16"%string) then inr s
       else inl (Cli.CliWarning "subnet not found");
     Cli.host_info_by_name := sample_hosts;
     Cli.host_info_by_name_or_ip := sample_hosts;
     Cli.aliases_of_host := λ s,
       if decide (s = "mail.example.org"%string)
       then ["smtp.example.org"; "imap.example.org"]%string else [];
     Cli.int := decimal |}.

(** The members of a command object with two options, in the order of
    [getmembers] (sorted by name). *)
Definition sample_members : list CommandBase.member :=
  [CommandBase.mk_member "__init__" true "__init__";
   CommandBase.mk_member "__module__" false "";
   CommandBase.mk_member "opt_info" true "opt_info";
   CommandBase.mk_member "opt_remove" true "opt_remove";
   CommandBase.mk_member "options" true "options"]%string.

Example match_line_office :
  Re.match_line ("10.0.0.0/24   :oslo:office:|Main office subnet" +:+ String "010"%char "")
  = Some ("10.0.0.0/24", "oslo:office", "Main office subnet")%string.
Proof. vm_compute. reflexivity. Qed.

Example match_line_last_bar :
  Re.match_line "1.2.3.4/5 :a:|b:|c" = Some ("1.2.3.4/5", "a:|b", "c")%string.
Proof. vm_compute. reflexivity. Qed.

Example match_line_no_tags : Re.match_line "1.2.3.4/5 |c" = None.
Proof. vm_compute. reflexivity. Qed.

Example split_tags : PyStr.split ":" "oslo::office" = ["oslo"; ""; "office"]%string.
Proof. vm_compute. reflexivity. Qed.

Example strip_ex : PyStr.strip "  a b  " = "a b"%string.
Proof. vm_compute. reflexivity. Qed.

(** The model of the division agrees with the Standard Library's binary64
    on sample quotients. *)
Example of_ratio_agrees :
  Forall (λ '(a, b), Float.to_spec (Float.of_ratio a b) = Float.spec_div a b)
    [(1, 5); (2, 10); (1, 3); (3, 14); (1, 2); (1, 1); (0, 7); (1, 4503599627370495);
     (900719925474099, 4503599627370495); (900719925474100, 4503599627370495);
     (2000001, 10000000); (1999999, 10000000)].
Proof. repeat constructor. Qed.



(** * Properties *)

(** ** The monad and the loops *)

Ltac munfold :=
  unfold mbind, M_bind, mret, M_ret, raise, cli_warning, write, call, getitem in *.

Lemma bind_return {A B} (m : M A) (f : A → M B) st a st' :
  m st = (Return a, st') → (m ≫= f) st = f a st'.
Proof. intros H. unfold mbind, M_bind. by rewrite H. Qed.

Lemma bind_raise {A B} (m : M A) (f : A → M B) st e st' :
  m st = (Raise e, st') → (m ≫= f) st = (Raise e, st').
Proof. intros H. unfold mbind, M_bind. by rewrite H. Qed.

Lemma for_cons_return {A S} (body : S → A → M S) x xs s st s' st' :
  body s x st = (Return s', st') →
  for_ (x :: xs) body s st = for_ xs body s' st'.
Proof. intros H. simpl. by apply bind_return. Qed.

Lemma for_cons_raise {A S} (body : S → A → M S) x xs s st e st' :
  body s x st = (Raise e, st') →
  for_ (x :: xs) body s st = (Raise e, st').
Proof. intros H. simpl. by apply bind_raise. Qed.

(** A loop whose body neither raises nor changes the loop variables or the
    state on the elements it meets is a no-op. *)
Lemma for_skip {A S} (body : S → A → M S) xs s st :
  (∀ x, x ∈ xs → body s x st = (Return s, st)) →
  for_ xs body s st = (Return s, st).
Proof.
  induction xs as [|x xs IH]; intros H; [done|].
  rewrite (for_cons_return _ _ _ _ _ s st) by (apply H; left).
  apply IH. intros y Hy. apply H. by right.
Qed.

(** A loop whose body raises on some element, and is a no-op on the
    elements before it, raises. *)
Lemma for_raise {A S} (body : S → A → M S) e xs s st :
  (∀ x, x ∈ xs → body s x st = (Return s, st) ∨ body s x st = (Raise e, st)) →
  (∃ x, x ∈ xs ∧ body s x st = (Raise e, st)) →
  for_ xs body s st = (Raise e, st).
Proof.
  induction xs as [|x xs IH]; intros Hall [y [Hy Hr]].
  - by apply elem_of_nil in Hy.
  - destruct (Hall x) as [Hx|Hx]; [left| |].
    + rewrite (for_cons_return _ _ _ _ _ s st) by done.
      apply IH.
      * intros z Hz. apply Hall. by right.
      * apply elem_of_cons in Hy as [->|Hy]; [congruence|eauto].
    + by apply for_cons_raise.
Qed.

Lemma iter_elem_of (w : Env) (X : gset string) x : x ∈ iter w X ↔ x ∈ X.
Proof. rewrite (iter_perm w X). apply elem_of_elements. Qed.

Lemma iter_NoDup (w : Env) (X : gset string) : NoDup (iter w X).
Proof. rewrite (iter_perm w X). apply NoDup_elements. Qed.

Lemma iter_empty (w : Env) : iter w ∅ = [].
Proof.
  apply Permutation_nil_r. rewrite (iter_perm w ∅). by rewrite elements_empty.
Qed.

Lemma iter_length (w : Env) (X : gset string) : length (iter w X) = size X.
Proof. by rewrite (iter_perm w X). Qed.

(** ** The checks *)

Section checks.
Context (w : Env).

Lemma check_in_use_free ERROR subnet st :
  get_subnet_used_list w subnet = [] →
  check_in_use w ERROR subnet st = (Return ERROR, st).
Proof. intros H. unfold check_in_use. by rewrite H. Qed.

Lemma check_in_use_used ERROR subnet st :
  get_subnet_used_list w subnet ≠ [] →
  check_in_use w ERROR subnet st = (Raise TypeError, st).
Proof.
  intros H. unfold check_in_use.
  destruct (get_subnet_used_list w subnet); [done|reflexivity].
Qed.

Lemma check_in_use_cases ERROR subnet st :
  check_in_use w ERROR subnet st = (Return ERROR, st)
  ∨ check_in_use w ERROR subnet st = (Raise TypeError, st).
Proof.
  destruct (get_subnet_used_list w subnet) eqn:H.
  - left. by apply check_in_use_free.
  - right. apply check_in_use_used. by rewrite H.
Qed.

(** The first loop passes when no subnet to delete has an address in use. *)
Lemma in_use_loop_free (X : gset string) ERROR st :
  (∀ r, r ∈ X → get_subnet_used_list w r = []) →
  for_ (iter w X) (check_in_use w) ERROR st = (Return ERROR, st).
Proof.
  intros H. apply for_skip. intros r Hr.
  apply check_in_use_free, H. by apply (iter_elem_of w).
Qed.

(** The first loop raises [TypeError], with nothing written, as soon as a
    subnet to delete has an address in use. *)
Lemma in_use_loop_used (X : gset string) ERROR st r :
  r ∈ X → get_subnet_used_list w r ≠ [] →
  for_ (iter w X) (check_in_use w) ERROR st = (Raise TypeError, st).
Proof.
  intros Hr Hused. apply for_raise.
  - intros x _. apply check_in_use_cases.
  - exists r. split; [by apply (iter_elem_of w)|by apply check_in_use_used].
Qed.

Lemma check_overlap_empty ERROR subnet_new st :
  check_overlap w ∅ ERROR subnet_new st
  = match ip_network w subnet_new with
    | Some _ => (Return ERROR, st)
    | None => (Raise ValueError, st)
    end.
Proof.
  unfold check_overlap, parse_network. rewrite iter_empty.
  by destruct (ip_network w subnet_new).
Qed.

(** The second loop compares with an empty [subnets_patch]: it passes,
    whatever the networks, when the new ranges parse. *)
Lemma overlap_loop_pass (X : gset string) ERROR st :
  (∀ r, r ∈ X → is_Some (ip_network w r)) →
  for_ (iter w X) (check_overlap w ∅) ERROR st = (Return ERROR, st).
Proof.
  intros H. apply for_skip. intros r Hr. rewrite check_overlap_empty.
  apply iter_elem_of in Hr. by destruct (H r Hr) as [n ->].
Qed.

(** It never sets [ERROR] and never writes to the log. *)
Lemma overlap_loop_cases (xs : list string) ERROR st :
  for_ xs (check_overlap w ∅) ERROR st = (Return ERROR, st)
  ∨ for_ xs (check_overlap w ∅) ERROR st = (Raise ValueError, st).
Proof.
  induction xs as [|x xs IH]; [by left|].
  destruct (ip_network w x) eqn:Hx.
  - rewrite (for_cons_return _ _ _ _ _ ERROR st); [done|].
    by rewrite check_overlap_empty, Hx.
  - right. apply for_cons_raise. by rewrite check_overlap_empty, Hx.
Qed.

Lemma differs_true new cur :
  differs new cur = true ↔
  description new ≠ description cur ∨ vlan new ≠ vlan cur
  ∨ category new ≠ category cur ∨ location new ≠ location cur.
Proof.
  unfold differs. rewrite !orb_true_iff, !bool_decide_eq_true. tauto.
Qed.

Lemma differs_false new cur :
  differs new cur = false ↔
  description new = description cur ∧ vlan new = vlan cur
  ∧ category new = category cur ∧ location new = location cur.
Proof.
  unfold differs. rewrite !orb_false_iff, !bool_decide_eq_false.
  split.
  - intros [[[H1 H2] H3] H4]. repeat split; by apply dec_stable.
  - intros (-> & -> & -> & ->). repeat split; by intros [].
Qed.

Lemma check_patch_step O I U r st :
  r ∈ dom O → r ∈ dom I →
  ∃ U', check_patch O I U r st = (Return U', st)
        ∧ ∀ x, x ∈ U' ↔ x ∈ U ∨ (x = r ∧ changed O I x).
Proof.
  intros [cur Hcur]%elem_of_dom [new Hnew]%elem_of_dom.
  unfold check_patch, getitem. rewrite Hcur, Hnew. munfold. simpl.
  destruct (differs new cur) eqn:Hd.
  - eexists. split; [reflexivity|]. intros x.
    rewrite elem_of_union, elem_of_singleton.
    apply differs_true in Hd.
    split; (intros [?|?]; [by left|right]).
    + subst x. split; [done|]. by exists cur, new.
    + tauto.
  - eexists. split; [reflexivity|]. intros x.
    apply differs_false in Hd. split; [by left|].
    intros [?|[-> (cur' & new' & ? & ? & Hch)]]; [done|].
    simplify_eq. destruct Hd as (? & ? & ? & ?). naive_solver.
Qed.

(** The third loop returns the ranges of the list that changed, added to
    the set it starts with; it leaves the state alone. *)
Lemma patch_loop O I xs U st :
  (∀ r, r ∈ xs → r ∈ dom O ∧ r ∈ dom I) →
  ∃ U', for_ xs (check_patch O I) U st = (Return U', st)
        ∧ ∀ x, x ∈ U' ↔ x ∈ U ∨ (x ∈ xs ∧ changed O I x).
Proof.
  revert U. induction xs as [|r xs IH]; intros U H.
  - exists U. split; [done|]. intros x. rewrite elem_of_nil. tauto.
  - destruct (H r) as [HO HI]; [left|].
    destruct (check_patch_step O I U r st HO HI) as (U1 & Hstep & HU1).
    destruct (IH U1) as (U' & Hloop & HU').
    { intros y Hy. apply H. by right. }
    exists U'. split.
    + by rewrite (for_cons_return _ _ _ _ _ U1 st).
    + intros x. rewrite HU', HU1, elem_of_cons. naive_solver.
Qed.

Lemma patch_set O I st :
  ∃ U, for_ (iter w (dom I ∩ dom O)) (check_patch O I) ∅ st = (Return U, st)
       ∧ ∀ x, x ∈ U ↔ x ∈ dom O ∩ dom I ∧ changed O I x.
Proof.
  destruct (patch_loop O I (iter w (dom I ∩ dom O)) ∅ st) as (U & HU & Hx).
  { intros r Hr%iter_elem_of. set_solver. }
  exists U. split; [done|]. intros x. rewrite Hx, iter_elem_of. set_solver.
Qed.

End checks.

(** ** The threshold: binary64 against exact arithmetic *)

Section threshold.

Lemma lit_0_2_value : Float.lit_0_2 = Float.mk 7205759403792794 (-55).
Proof. vm_compute. reflexivity. Qed.

Lemma rne_div_cases x n :
  0 < n → 0 <= x →
  ∃ q r, x = q * n + r ∧ 0 <= r < n ∧ 0 <= q ∧
    ((2 * r < n ∧ Float.rne_div x n = q)
     ∨ (n < 2 * r ∧ Float.rne_div x n = q + 1)
     ∨ (2 * r = n ∧ Z.even q = true ∧ Float.rne_div x n = q)
     ∨ (2 * r = n ∧ Z.even q = false ∧ Float.rne_div x n = q + 1)).
Proof.
  intros Hn Hx. exists (x / n), (x mod n).
  pose proof (Z.div_mod x n ltac:(lia)) as Hdm.
  pose proof (Z.mod_pos_bound x n Hn) as Hr.
  pose proof (Z.div_pos x n Hx Hn) as Hq.
  split; [lia|]. split; [done|]. split; [done|].
  unfold Float.rne_div.
  destruct (Z.ltb_spec (2 * (x mod n)) n); [by left|].
  destruct (Z.ltb_spec n (2 * (x mod n))); [right; by left|].
  destruct (Z.even (x / n)) eqn:He.
  - right; right; left. repeat split; [lia|done..].
  - right; right; right. repeat split; [lia|done..].
Qed.

(** Rounding keeps a quotient between the integers that bound it. *)
Lemma rne_div_bounds x n lo hi :
  0 < n → 0 <= lo → lo * n <= x → x < hi * n →
  lo <= Float.rne_div x n <= hi.
Proof.
  intros Hn Hlo Hl Hh.
  destruct (rne_div_cases x n Hn) as (q & r & Hx & Hr & Hq & Hc); [nia|].
  assert (lo <= q) by nia.
  assert (q < hi) by nia.
  destruct Hc as [[_ ->]|[[_ ->]|[(_ & _ & ->)|(_ & _ & ->)]]]; lia.
Qed.

(** The rounded quotient exceeds an even integer [c] exactly when the
    quotient exceeds [c + 1/2]: a tie goes to [c]. *)
Lemma rne_div_gt x n c :
  0 < n → 0 <= x → 0 <= c → Z.even c = true →
  c < Float.rne_div x n ↔ n * (2 * c + 1) < 2 * x.
Proof.
  intros Hn Hx Hc Hev.
  destruct (rne_div_cases x n Hn Hx) as (q & r & -> & Hr & Hq & Hcase).
  destruct Hcase as [[H ->]|[[H ->]|[(H & He & ->)|(H & He & ->)]]].
  - split; intros; nia.
  - split; intros; nia.
  - split; intros; nia.
  - assert (q ≠ c) by (intros ->; congruence).
    split; intros; nia.
Qed.

Lemma shift_nonneg k : 0 <= k → Float.shift k = 2 ^ k.
Proof. intros H. unfold Float.shift. by rewrite Z.max_r. Qed.

Lemma shift_nonpos k : k <= 0 → Float.shift k = 1.
Proof. intros H. unfold Float.shift. by rewrite Z.max_l. Qed.

Lemma ilog2_ratio_spec a n :
  0 < a → a <= n →
  Float.ilog2_ratio a n <= 0
  ∧ n <= a * 2 ^ (- Float.ilog2_ratio a n) < 2 * n.
Proof.
  intros Ha Han.
  pose proof (Z.log2_spec a Ha) as [Hla1 Hla2].
  pose proof (Z.log2_spec n ltac:(lia)) as [Hln1 Hln2].
  pose proof (Z.log2_le_mono a n Han) as Hmono.
  pose proof (Z.log2_nonneg a) as Hla0.
  unfold Float.ilog2_ratio.
  set (la := Z.log2 a) in *. set (ln := Z.log2 n) in *.
  set (j := ln - la).
  assert (Hj : 0 <= j) by (unfold j; lia).
  assert (Hpow : 2 ^ ln = 2 ^ la * 2 ^ j).
  { rewrite <- Z.pow_add_r by lia. f_equal. unfold j. lia. }
  rewrite Z.pow_succ_r in Hla2, Hln2 by lia.
  assert (Hpj : 0 < 2 ^ j) by (apply Z.pow_pos_nonneg; lia).
  replace (la - ln) with (- j) by (unfold j; lia).
  rewrite (shift_nonpos (- j)) by lia.
  rewrite (shift_nonneg (- - j)) by lia.
  rewrite Z.opp_involutive.
  destruct (Z.leb_spec (n * 1) (a * 2 ^ j)) as [Hle|Hgt].
  - rewrite Z.opp_involutive. split; [lia|]. nia.
  - replace (- (- j - 1)) with (Z.succ j) by lia.
    rewrite Z.pow_succ_r by lia. split; [lia|]. nia.
Qed.

(** The exponent [of_ratio] picks puts the scaled quotient in [[2^52, 2^53)]. *)
Lemma of_ratio_scaled a n :
  0 < a → a <= n →
  ∃ k, 52 <= k
    ∧ Float.of_ratio a n = Float.mk (Float.rne_div (a * 2 ^ k) n) (- k)
    ∧ 2 ^ 52 * n <= a * 2 ^ k < 2 ^ 53 * n.
Proof.
  intros Ha Han.
  destruct (ilog2_ratio_spec a n Ha Han) as [Hf Hscale].
  unfold Float.of_ratio.
  destruct (Z.eqb_spec a 0); [lia|].
  set (f := Float.ilog2_ratio a n) in *.
  exists (52 - f). split; [lia|]. split.
  - rewrite (shift_nonneg (- (f - 52))), (shift_nonpos (f - 52)) by lia.
    f_equal; [|lia]. f_equal; [|lia]. f_equal. f_equal. lia.
  - replace (52 - f) with (52 + - f) by lia.
    rewrite Z.pow_add_r by lia.
    change (2 ^ 53) with (2 * 2 ^ 52).
    assert (0 < 2 ^ 52) by done. nia.
Qed.

(** On inventories below [2^52] subnets the float comparison
    [a / n > 0.2] is the exact one. *)
Lemma ratio_gt_0_2 a n :
  0 <= a → a <= n → 0 < n → n < 2 ^ 52 →
  Float.ltb Float.lit_0_2 (Float.of_ratio a n) = true ↔ n < 5 * a.
Proof.
  intros Ha Han Hn Hbig. rewrite lit_0_2_value.
  destruct (Z.eq_dec a 0) as [->|Ha0].
  { vm_compute Float.of_ratio. unfold Float.ltb. simpl.
    split; [discriminate|lia]. }
  destruct (of_ratio_scaled a n ltac:(lia) Han) as (k & Hk & -> & Hlo & Hhi).
  pose proof (rne_div_bounds (a * 2 ^ k) n (2 ^ 52) (2 ^ 53) Hn ltac:(lia) Hlo Hhi)
    as [Hm1 Hm2].
  set (m := Float.rne_div (a * 2 ^ k) n) in *.
  unfold Float.ltb. simpl Float.mant. simpl Float.expo.
  rewrite Z.ltb_lt.
  change (2 ^ 52) with 4503599627370496 in *.
  change (2 ^ 53) with 9007199254740992 in *.
  destruct (Z.lt_trichotomy k 55) as [Hlt|[->|Hgt]].
  - rewrite Z.min_l by lia.
    replace (-55 - -55) with 0 by lia. change (2 ^ 0) with 1.
    assert (Hp : 2 <= 2 ^ (- k - -55)).
    { change 2 with (2 ^ 1) at 1. apply Z.pow_le_mono_r; lia. }
    assert (Hq : 2 ^ k <= 2 ^ 54) by (apply Z.pow_le_mono_r; lia).
    change (2 ^ 54) with 18014398509481984 in Hq.
    split; intros _; nia.
  - subst m. rewrite Z.min_l by lia.
    replace (-55 - -55) with 0 by lia. change (2 ^ 0) with 1.
    rewrite !Z.mul_1_r.
    rewrite rne_div_gt; [|lia|nia|lia|reflexivity].
    change (2 ^ 55) with 36028797018963968. lia.
  - rewrite Z.min_r by lia.
    replace (- k - - k) with 0 by lia. change (2 ^ 0) with 1.
    assert (Hp : 2 <= 2 ^ (-55 - - k)).
    { change 2 with (2 ^ 1) at 1. apply Z.pow_le_mono_r; lia. }
    assert (Hq : 2 ^ 56 <= 2 ^ k) by (apply Z.pow_le_mono_r; lia).
    change (2 ^ 56) with 72057594037927936 in Hq.
    split; intros; nia.
Qed.

End threshold.

(** ** The gate and the requests *)

Section gate_and_requests.
Context (w : Env).

Lemma over_threshold_empty (D U : gset string) (O : gmap string subnet) st :
  size (dom O) = 0%nat →
  over_threshold D U O st = (Raise ZeroDivisionError, st).
Proof. intros H. unfold over_threshold, Float.truediv. by rewrite H. Qed.

Lemma over_threshold_exact (D U : gset string) (O : gmap string subnet) st :
  size (dom O) ≠ 0%nat →
  (size D + size U ≤ size (dom O))%nat →
  Z.of_nat (size (dom O)) < 2 ^ 52 →
  ∃ over, over_threshold D U O st = (Return over, st)
    ∧ (over = true ↔ (size (dom O) < 5 * (size D + size U))%nat).
Proof.
  intros Hne Hle Hbig. unfold over_threshold, Float.truediv.
  destruct (Z.eqb_spec (Z.of_nat (size (dom O))) 0) as [|_]; [lia|].
  eexists. split; [reflexivity|].
  rewrite ratio_gt_0_2 by lia. lia.
Qed.

(** The sets to delete and to patch are disjoint parts of the inventory. *)
Lemma plan_size (O I : gmap string subnet) (U : gset string) :
  U ⊆ dom O ∩ dom I →
  (size (dom O ∖ dom I) + size U ≤ size (dom O))%nat.
Proof.
  intros HU. rewrite <- size_union by set_solver.
  apply subseteq_size. set_solver.
Qed.

Lemma gate_error args (D U : gset string) (O : gmap string subnet) st :
  ∃ msg, gate args true D U O st = (Raise (CliWarning msg), st).
Proof. eexists. reflexivity. Qed.

Lemma gate_empty args (D U : gset string) (O : gmap string subnet) st :
  size (dom O) = 0%nat →
  gate args false D U O st = (Raise ZeroDivisionError, st).
Proof.
  intros H. unfold gate. munfold. simpl.
  change (over_threshold D U O st) with (over_threshold D U O st).
  by rewrite (over_threshold_empty D U O st H).
Qed.

(** Without [ERROR], on a non-empty inventory, the gate stops the run
    exactly when more than a fifth of the subnets change and [y] is not
    among the arguments. *)
Lemma gate_exact args (D U : gset string) (O : gmap string subnet) st :
  size (dom O) ≠ 0%nat →
  (size D + size U ≤ size (dom O))%nat →
  Z.of_nat (size (dom O)) < 2 ^ 52 →
  gate args false D U O st
  = if bool_decide ((size (dom O) < 5 * (size D + size U))%nat ∧ "y"%string ∉ args)
    then (Raise (CliWarning requires_force), st)
    else (Return (), st).
Proof.
  intros Hne Hle Hbig.
  destruct (over_threshold_exact D U O st Hne Hle Hbig) as (over & Hover & Hiff).
  unfold gate. munfold. simpl. rewrite Hover.
  destruct over.
  - assert (Hlt : (size (dom O) < 5 * (size D + size U))%nat) by by apply Hiff.
    destruct (decide ("y"%string ∈ args)) as [Hy|Hy].
    + rewrite (bool_decide_eq_true_2 _ Hy). simpl.
      rewrite bool_decide_eq_false_2; [done|]. tauto.
    + rewrite (bool_decide_eq_false_2 _ Hy). simpl.
      rewrite bool_decide_eq_true_2; done.
  - simpl. rewrite bool_decide_eq_false_2; [done|].
    intros [Hlt _]. apply Hiff in Hlt. done.
Qed.

Lemma do_delete_step x st :
  do_delete w () x st
  = (Return (), mk_state (log_file st ++ ["DELETE " +:+ subnet_url w x +:+ nl])
                         (calls st ++ [DELETE (subnet_url w x)])).
Proof. reflexivity. Qed.

Lemma do_post_step (I : gmap string subnet) x data st :
  I !! x = Some data →
  do_post w I () x st
  = (Return (),
     mk_state (log_file st ++ ["POST " +:+ subnet_url w "" +:+ " - " +:+ x +:+ nl])
              (calls st ++ [POST (subnet_url w "") data])).
Proof. intros H. unfold do_post, getitem. rewrite H. reflexivity. Qed.

Lemma do_patch_step (I : gmap string subnet) x data st :
  I !! x = Some data →
  do_patch w I () x st
  = (Return (), mk_state (log_file st ++ ["PATCH " +:+ subnet_url w x +:+ nl])
                         (calls st ++ [PATCH (subnet_url w x) (patch_kwargs data)])).
Proof. intros H. unfold do_patch, getitem. rewrite H. reflexivity. Qed.

Lemma delete_loop xs st :
  ∃ lines, for_ xs (do_delete w) () st
    = (Return (), mk_state (log_file st ++ lines) (calls st ++ delete_calls w xs)).
Proof.
  revert st. induction xs as [|x xs IH]; intros st.
  - exists []. simpl. unfold delete_calls. simpl. rewrite !app_nil_r.
    by destruct st.
  - rewrite (for_cons_return _ _ _ _ _ _ _ (do_delete_step x st)).
    destruct (IH (mk_state (log_file st ++ ["DELETE " +:+ subnet_url w x +:+ nl])
                           (calls st ++ [DELETE (subnet_url w x)])))
      as (lines & ->).
    eexists. unfold delete_calls. simpl. rewrite <- !app_assoc. reflexivity.
Qed.

Lemma post_loop (I : gmap string subnet) xs st :
  (∀ r, r ∈ xs → r ∈ dom I) →
  ∃ lines cs, Forall2 (post_call w I) xs cs
    ∧ for_ xs (do_post w I) () st
      = (Return (), mk_state (log_file st ++ lines) (calls st ++ cs)).
Proof.
  revert st. induction xs as [|x xs IH]; intros st H.
  - exists [], []. split; [constructor|]. simpl. rewrite !app_nil_r.
    by destruct st.
  - assert (x ∈ dom I) as [data Hdata]%elem_of_dom by (apply H; left).
    rewrite (for_cons_return _ _ _ _ _ _ _ (do_post_step I x data st Hdata)).
    edestruct IH as (lines & cs & Hcs & ->).
    { intros y Hy. apply H. by right. }
    eexists _, (POST (subnet_url w "") data :: cs). split.
    + constructor; [by exists data|done].
    + simpl. rewrite <- !app_assoc. reflexivity.
Qed.

Lemma patch_requests_loop (I : gmap string subnet) xs st :
  (∀ r, r ∈ xs → r ∈ dom I) →
  ∃ lines cs, Forall2 (patch_call w I) xs cs
    ∧ for_ xs (do_patch w I) () st
      = (Return (), mk_state (log_file st ++ lines) (calls st ++ cs)).
Proof.
  revert st. induction xs as [|x xs IH]; intros st H.
  - exists [], []. split; [constructor|]. simpl. rewrite !app_nil_r.
    by destruct st.
  - assert (x ∈ dom I) as [data Hdata]%elem_of_dom by (apply H; left).
    rewrite (for_cons_return _ _ _ _ _ _ _ (do_patch_step I x data st Hdata)).
    edestruct IH as (lines & cs & Hcs & ->).
    { intros y Hy. apply H. by right. }
    eexists _, (PATCH (subnet_url w x) (patch_kwargs data) :: cs). split.
    + constructor; [by exists data|done].
    + simpl. rewrite <- !app_assoc. reflexivity.
Qed.

(** The calls of the three loops, in the order of the loops. *)
Lemma apply_requests_calls (I : gmap string subnet) (D C U : gset string) st :
  C ⊆ dom I → U ⊆ dom I →
  ∃ lines posts patches,
    Forall2 (post_call w I) (iter w C) posts
    ∧ Forall2 (patch_call w I) (iter w U) patches
    ∧ apply_requests w I D C U st
      = (Return (),
         mk_state (log_file st ++ lines)
           (calls st ++ delete_calls w (iter w D) ++ posts ++ patches)).
Proof.
  intros HC HU. unfold apply_requests.
  set (st0 := mk_state (log_file st ++ ["------ API REQUESTS START ------" +:+ nl])
                       (calls st)).
  destruct (delete_loop (iter w D) st0) as (l1 & H1).
  destruct (post_loop I (iter w C)
              (mk_state (log_file st0 ++ l1) (calls st0 ++ delete_calls w (iter w D))))
    as (l2 & posts & Hposts & H2).
  { intros r Hr%iter_elem_of. set_solver. }
  destruct (patch_requests_loop I (iter w U)
              (mk_state ((log_file st0 ++ l1) ++ l2)
                        ((calls st0 ++ delete_calls w (iter w D)) ++ posts)))
    as (l3 & patches & Hpatches & H3).
  { intros r Hr%iter_elem_of. set_solver. }
  simpl in H2, H3.
  exists (["------ API REQUESTS START ------" +:+ nl] ++ l1 ++ l2 ++ l3
          ++ ["------ API REQUESTS END ------" +:+ nl]), posts, patches.
  split; [done|]. split; [done|].
  munfold. simpl. fold st0. rewrite H1. simpl. rewrite H2. simpl. rewrite H3.
  simpl. f_equal. f_equal; rewrite <- ?app_assoc; reflexivity.
Qed.

End gate_and_requests.

(** ** Strings *)

Section strings.
Import PyStr.












End strings.

(** ** Reading the file *)

Section reading.
Context (w : Env).

Lemma read_tag_step n info tag st :
  read_tag w n info tag st
  = match classify w tag with
    | LocationTag => (Return (Some tag, info.2), st)
    | CategoryTag => (Return (info.1, add_category info.2 tag), st)
    | Unrecognized =>
        (Return info, mk_state (log_file st ++ [invalid_tag w n tag]) (calls st))
    end.
Proof.
  unfold read_tag, classify.
  destruct (is_valid_location_tag w tag); [done|].
  destruct (is_valid_category_tag w tag); done.
Qed.

(** The loop over the tags: the last location tag, the category tags
    accumulated in order, one diagnostic per unrecognized tag. *)
Lemma tag_loop n tags info st :
  for_ tags (read_tag w n) info st
  = (Return (match last (tags_of_kind w LocationTag tags) with
             | Some tag => Some tag
             | None => info.1
             end,
             foldl add_category info.2 (tags_of_kind w CategoryTag tags)),
     mk_state (log_file st ++ (invalid_tag w n <$> tags_of_kind w Unrecognized tags))
              (calls st)).
Proof.
  revert info st. induction tags as [|tag tags IH]; intros info st.
  - simpl. rewrite app_nil_r. by destruct info, st.
  - unfold tags_of_kind in *. rewrite !filter_cons.
    pose proof (read_tag_step n info tag st) as Hstep.
    destruct (classify w tag) eqn:Hk.
    + rewrite (for_cons_return _ _ _ _ _ _ _ Hstep), IH.
      rewrite decide_True by done.
      rewrite !decide_False by done. simpl.
      rewrite last_cons. by destruct (last _).
    + rewrite (for_cons_return _ _ _ _ _ _ _ Hstep), IH.
      rewrite decide_False by done. rewrite decide_True by done.
      rewrite decide_False by done. done.
    + rewrite (for_cons_return _ _ _ _ _ _ _ Hstep), IH.
      rewrite !decide_False by done. rewrite decide_True by done.
      simpl. rewrite <- app_assoc. done.
Qed.

Lemma read_line_calls vlans acc line st :
  ∃ acc' lines,
    read_line w vlans acc line st
    = (Return acc', mk_state (log_file st ++ lines) (calls st)).
Proof.
  unfold read_line. destruct (Re.match_line line) as [[[range tags] descr]|].
  - rewrite (bind_return _ _ _ _ _ (tag_loop _ _ _ _)). by eexists _, _.
  - exists (S acc.1, acc.2), []. rewrite app_nil_r. by destruct st.
Qed.

Lemma read_lines_calls vlans lines acc st :
  ∃ acc' written,
    for_ lines (read_line w vlans) acc st
    = (Return acc', mk_state (log_file st ++ written) (calls st)).
Proof.
  revert acc st. induction lines as [|line lines IH]; intros acc st.
  - exists acc, []. simpl. rewrite app_nil_r. by destruct st.
  - destruct (read_line_calls vlans acc line st) as (acc1 & l1 & H1).
    rewrite (for_cons_return _ _ _ _ _ _ _ H1).
    destruct (IH acc1 (mk_state (log_file st ++ l1) (calls st))) as (acc2 & l2 & ->).
    exists acc2, (l1 ++ l2). simpl. by rewrite app_assoc.
Qed.

(** Reading issues no call: it returns the imported records, or raises
    [OSError] when the file cannot be opened. *)
Lemma read_phase_calls args st o st' :
  read_phase w args st = (o, st') →
  calls st' = calls st ∧ (o = Raise OSError ∨ ∃ import_data, o = Return import_data).
Proof.
  unfold read_phase. munfold.
  destruct (open_r w (input_file w args)) as [file|]; simpl.
  - unfold read_file. munfold.
    edestruct (read_lines_calls (get_vlan_mapping w) file) as (acc & l & ->).
    simpl. intros [= <- <-]. simpl. eauto.
  - intros [= <- <-]. simpl. eauto.
Qed.

End reading.

(** ** The second part of the import, case by case *)

Section reconciling.
Context (w : Env).

Lemma in_use_loop_cases xs ERROR st :
  for_ xs (check_in_use w) ERROR st = (Return ERROR, st)
  ∨ for_ xs (check_in_use w) ERROR st = (Raise TypeError, st).
Proof.
  induction xs as [|x xs IH]; [by left|].
  destruct (check_in_use_cases w ERROR x st) as [H|H].
  - by rewrite (for_cons_return _ _ _ _ _ _ _ H).
  - right. by apply for_cons_raise.
Qed.

(** The gate either lets the run go on or raises; it writes nothing. *)
Lemma gate_cases args ERROR (D U : gset string) (O : gmap string subnet) st :
  gate args ERROR D U O st = (Return (), st)
  ∨ ∃ e, gate args ERROR D U O st = (Raise e, st).
Proof.
  unfold gate, over_threshold. munfold.
  destruct ERROR; simpl; [right; by eexists|].
  destruct (Float.truediv _ _); simpl; [|right; by eexists].
  destruct (_ && _); [right; by eexists|by left].
Qed.

Lemma diff_eq (O I : gmap string subnet) st :
  ∃ U, diff w O I st = (Return (dom O ∖ dom I, dom I ∖ dom O, U), st)
       ∧ for_ (iter w (dom I ∩ dom O)) (check_patch O I) ∅ st = (Return U, st)
       ∧ ∀ x, x ∈ U ↔ x ∈ dom O ∩ dom I ∧ changed O I x.
Proof.
  destruct (patch_set w O I st) as (U & HU & Hx).
  exists U. split; [|done]. unfold diff.
  by rewrite (bind_return _ _ _ _ _ HU).
Qed.

(** A subnet to delete with an address in use: [TypeError], nothing
    written, nothing issued. *)
Lemma reconcile_in_use args I st r :
  r ∈ dom (observed w) ∖ dom I →
  get_subnet_used_list w r ≠ [] →
  reconcile w args I st = (Raise TypeError, st).
Proof.
  intros Hr Hused. unfold reconcile. apply bind_raise.
  by apply (in_use_loop_used w _ _ _ r).
Qed.

(** When the first two loops pass, what remains is the gate and the
    requests, on the sets of [diff]. *)
Lemma reconcile_checked args I st :
  (∀ r, r ∈ dom (observed w) ∖ dom I → get_subnet_used_list w r = []) →
  (∀ r, r ∈ dom I ∖ dom (observed w) → is_Some (ip_network w r)) →
  ∃ U, diff w (observed w) I st
       = (Return (dom (observed w) ∖ dom I, dom I ∖ dom (observed w), U), st)
    ∧ (∀ x, x ∈ U ↔ x ∈ dom (observed w) ∩ dom I ∧ changed (observed w) I x)
    ∧ reconcile w args I st
      = (gate args false (dom (observed w) ∖ dom I) U (observed w);;
         apply_requests w I (dom (observed w) ∖ dom I) (dom I ∖ dom (observed w)) U) st.
Proof.
  intros Hfree Hparse.
  destruct (diff_eq (observed w) I st) as (U & Hdiff & HU & Hx).
  exists U. split; [done|]. split; [done|].
  unfold reconcile. fold (observed w).
  rewrite (bind_return _ _ _ _ _ (in_use_loop_free w _ false st Hfree)).
  rewrite (bind_return _ _ _ _ _ (overlap_loop_pass w _ false st Hparse)).
  by rewrite (bind_return _ _ _ _ _ HU).
Qed.

(** Whatever happens, the second part raises with the state it started
    from, or it went through both checks and the gate. *)
Lemma reconcile_cases args I st :
  (∃ e, reconcile w args I st = (Raise e, st))
  ∨ ((∀ r, r ∈ dom (observed w) ∖ dom I → get_subnet_used_list w r = [])
     ∧ (∀ r, r ∈ dom I ∖ dom (observed w) → is_Some (ip_network w r))
     ∧ ∃ U, (∀ x, x ∈ U ↔ x ∈ dom (observed w) ∩ dom I ∧ changed (observed w) I x)
       ∧ gate args false (dom (observed w) ∖ dom I) U (observed w) st = (Return (), st)
       ∧ reconcile w args I st
         = apply_requests w I (dom (observed w) ∖ dom I) (dom I ∖ dom (observed w)) U st).
Proof.
  destruct (decide (Forall (λ r, get_subnet_used_list w r = [])
                      (iter w (dom (observed w) ∖ dom I)))) as [Hfree|Hused].
  2:{ left. exists TypeError.
      apply not_Forall_Exists in Hused; [|apply _].
      apply Exists_exists in Hused as (r & Hr & Hne). cbn in Hne.
      apply (reconcile_in_use _ _ _ r); [by apply (iter_elem_of w)|done]. }
  assert (Hfree' : ∀ r, r ∈ dom (observed w) ∖ dom I → get_subnet_used_list w r = []).
  { intros r Hr. rewrite Forall_forall in Hfree. by apply Hfree, iter_elem_of. }
  destruct (decide (Forall (λ r, is_Some (ip_network w r))
                      (iter w (dom I ∖ dom (observed w))))) as [Hparse|Hbad].
  2:{ left. exists ValueError. unfold reconcile. fold (observed w).
      rewrite (bind_return _ _ _ _ _ (in_use_loop_free w _ false st Hfree')).
      apply bind_raise.
      apply not_Forall_Exists in Hbad; [|apply _].
      apply Exists_exists in Hbad as (r & Hr & Hnone).
      apply for_raise.
      - intros x _. rewrite check_overlap_empty. destruct (ip_network w x); eauto.
      - exists r. split; [done|]. rewrite check_overlap_empty.
        cbn in Hnone. destruct (ip_network w r); [|done].
        exfalso. apply Hnone. by eexists. }
  assert (Hparse' : ∀ r, r ∈ dom I ∖ dom (observed w) → is_Some (ip_network w r)).
  { intros r Hr. rewrite Forall_forall in Hparse. by apply Hparse, iter_elem_of. }
  destruct (reconcile_checked args I st Hfree' Hparse') as (U & _ & HU & Heq).
  destruct (gate_cases args false (dom (observed w) ∖ dom I) U (observed w) st)
    as [Hgate|[e Hgate]].
  - right. split; [done|]. split; [done|]. exists U. split; [done|]. split; [done|].
    rewrite Heq. by rewrite (bind_return _ _ _ _ _ Hgate).
  - left. exists e. rewrite Heq. by apply bind_raise.
Qed.

(** A run that returns went through the whole routine: its calls are the
    deletes, then the creates, then the updates of the sets of [diff]. *)
Lemma run_returns args st :
  run w args = (Return (), st) →
  ∃ I st1 U posts patches,
    read_phase w args init = (Return I, st1)
    ∧ diff w (observed w) I init
      = (Return (dom (observed w) ∖ dom I, dom I ∖ dom (observed w), U), init)
    ∧ (∀ x, x ∈ U ↔ x ∈ dom (observed w) ∩ dom I ∧ changed (observed w) I x)
    ∧ Forall2 (post_call w I) (iter w (dom I ∖ dom (observed w))) posts
    ∧ Forall2 (patch_call w I) (iter w U) patches
    ∧ calls st
      = delete_calls w (iter w (dom (observed w) ∖ dom I)) ++ posts ++ patches.
Proof.
  unfold run, opt_import. fold init. intros Hrun.
  destruct (read_phase w args init) as [[I|e] st1] eqn:Hread.
  2:{ rewrite (bind_raise _ _ _ _ _ Hread) in Hrun. done. }
  rewrite (bind_return _ _ _ _ _ Hread) in Hrun.
  destruct (read_phase_calls w args init _ _ Hread) as [Hcalls _].
  destruct (reconcile_cases args I st1)
    as [[e He]|(Hfree & Hparse & U & HU & Hgate & Heq)]; [congruence|].
  destruct (diff_eq (observed w) I init) as (U' & Hdiff & _ & HU').
  assert (U' = U) as -> by (apply set_eq; intros x; by rewrite HU, HU').
  destruct (apply_requests_calls w I (dom (observed w) ∖ dom I)
              (dom I ∖ dom (observed w)) U st1)
    as (lines & posts & patches & Hposts & Hpatches & Happly).
  { set_solver. }
  { intros x Hx%HU. set_solver. }
  exists I, st1, U, posts, patches.
  repeat (split; [done|]).
  rewrite Heq, Happly in Hrun. injection Hrun as <-. simpl.
  by rewrite Hcalls.
Qed.

End reconciling.

(** * The claims *)

(** ** The plan *)

(** C1. For every observed inventory [O] and imported inventory [I], the
    sets computed by the import are: to delete, the keys of [O] that are
    not keys of [I]; to create, the keys of [I] that are not keys of [O];
    to update, a subset of the common keys, holding exactly the ranges on
    which one of description, vlan, category, location differs, the values
    being compared as they are. *)
Theorem diff_plan (w : Env) (O I : gmap string subnet) (st : state) :
  ∃ toDelete toCreate toUpdate,
    diff w O I st = (Return (toDelete, toCreate, toUpdate), st)
    ∧ toDelete = dom O ∖ dom I
    ∧ toCreate = dom I ∖ dom O
    ∧ toUpdate ⊆ dom O ∩ dom I
    ∧ ∀ r, r ∈ toUpdate ↔ r ∈ dom O ∩ dom I ∧ changed O I r.
Proof.
  destruct (diff_eq w O I st) as (U & Hdiff & _ & HU).
  exists (dom O ∖ dom I), (dom I ∖ dom O), U.
  repeat (split; [done|]). split; [|done].
  intros r Hr. by apply HU in Hr as [? _].
Qed.

(** C9. When the observed inventory already equals the imported one (same
    ranges, same description, vlan, category and location on each), the
    three sets are empty. *)
Theorem diff_idempotent (w : Env) (O I : gmap string subnet) (st : state) :
  same_inventory O I →
  diff w O I st = (Return (∅, ∅, ∅), st).
Proof.
  intros [Hdom Hsame].
  destruct (diff_eq w O I st) as (U & -> & _ & HU).
  assert (U = ∅) as ->.
  { apply set_eq. intros r. rewrite HU, elem_of_empty. split; [|done].
    intros [_ (cur & new & Hcur & Hnew & Hch)].
    destruct (Hsame r cur new Hcur Hnew) as (? & ? & ? & ?).
    destruct Hch as [?|[?|[?|?]]]; done. }
  rewrite Hdom. by rewrite difference_diag_L.
Qed.

Lemma diff_idempotent_witness :
  same_inventory (<["10.0.0.0/16"%string := campus]> ∅)
                 (<["10.0.0.0/16"%string := campus]> ∅)
  ∧ diff same_env (<["10.0.0.0/16"%string := campus]> ∅)
         (<["10.0.0.0/16"%string := campus]> ∅) init
    = (Return (∅, ∅, ∅), init).
Proof.
  assert (H : same_inventory (<["10.0.0.0/16"%string := campus]> ∅)
                             (<["10.0.0.0/16"%string := campus]> ∅)).
  { split; [reflexivity|]. intros r cur new Hcur Hnew.
    rewrite Hcur in Hnew. injection Hnew as <-. repeat split; reflexivity. }
  split; [exact H|]. exact (diff_idempotent same_env _ _ init H).
Defined.

(** ** The in-use check *)

(** C10. Whenever a range to delete has an address in use, the run ends
    with the [TypeError] raised by indexing the range string with
    ['range'], in the state the reading left: no warning is written, no
    reason is recorded and no call is issued. *)
Theorem in_use_guard_type_error (w : Env) (args : list string)
    (I : gmap string subnet) (st1 : state) (r : string) :
  read_phase w args init = (Return I, st1) →
  r ∈ dom (observed w) ∖ dom I →
  get_subnet_used_list w r ≠ [] →
  run w args = (Raise TypeError, st1).
Proof.
  intros Hread Hr Hused. unfold run, opt_import. fold init.
  rewrite (bind_return _ _ _ _ _ Hread).
  by apply (reconcile_in_use w args I st1 r).
Qed.

Lemma in_use_guard_type_error_witness :
  run in_use_env ["subnets.txt"%string]
  = (Raise TypeError,
     mk_state ["------ READ FROM subnets.txt START ------" +:+ nl;
               "------ READ FROM subnets.txt END ------" +:+ nl] []).
Proof.
  apply (in_use_guard_type_error in_use_env ["subnets.txt"%string] ∅ _
           "10.0.0.0/16"%string).
  - vm_compute. reflexivity.
  - vm_compute. reflexivity.
  - discriminate.
Defined.

(** C4. A range to delete with an address in use aborts the run, and no
    delete, create or update is issued; the arguments, with or without
    the force token [y], make no difference. *)
Theorem in_use_delete_rejected (w : Env) (args : list string)
    (I : gmap string subnet) (st1 : state) (r : string) :
  read_phase w args init = (Return I, st1) →
  r ∈ dom (observed w) ∖ dom I →
  get_subnet_used_list w r ≠ [] →
  ∃ e st, run w args = (Raise e, st) ∧ calls st = [].
Proof.
  intros Hread Hr Hused. exists TypeError, st1. split.
  - unfold run, opt_import. fold init.
    rewrite (bind_return _ _ _ _ _ Hread).
    by apply (reconcile_in_use w args I st1 r).
  - by destruct (read_phase_calls w args init _ _ Hread) as [-> _].
Qed.

Lemma in_use_delete_rejected_witness :
  ∃ e st, run in_use_env ["subnets.txt"; "y"]%string = (Raise e, st) ∧ calls st = [].
Proof.
  apply (in_use_delete_rejected in_use_env ["subnets.txt"; "y"]%string ∅
           (mk_state ["------ READ FROM subnets.txt START ------" +:+ nl;
                      "------ READ FROM subnets.txt END ------" +:+ nl] [])
           "10.0.0.0/16"%string).
  - vm_compute. reflexivity.
  - vm_compute. reflexivity.
  - discriminate.
Defined.

(** ** The threshold *)

(** C3. Evaluation at an empty observed inventory with the force token: the
    file is read, nothing is to delete or to update and one range is to
    create, so the ratio is 0/0; the gate raises [ZeroDivisionError]
    although [y] is among the arguments, and the run stops there with no
    call issued. *)
Theorem forced_gate_divides_by_zero :
  ∃ I st1,
    read_phase empty_env ["subnets.txt"; "y"]%string init = (Return I, st1)
    ∧ size (dom (observed empty_env)) = 0%nat
    ∧ diff empty_env (observed empty_env) I init
      = (Return (∅, {["10.0.2.0/24"%string]}, ∅), init)
    ∧ "y"%string ∈ ["subnets.txt"; "y"]%string
    ∧ gate ["subnets.txt"; "y"]%string false ∅ ∅ (observed empty_env) st1
      = (Raise ZeroDivisionError, st1)
    ∧ run empty_env ["subnets.txt"; "y"]%string = (Raise ZeroDivisionError, st1)
    ∧ calls st1 = [].
Proof.
  eexists _, _. split; [vm_compute; reflexivity|].
  split; [vm_compute; reflexivity|].
  split; [vm_compute; reflexivity|].
  split; [right; left|].
  split; [vm_compute; reflexivity|].
  split; vm_compute; reflexivity.
Qed.

(** C5. Evaluation at an empty observed inventory: the quotient is
    computed before anything else is looked at, so the run ends with
    [ZeroDivisionError], with or without [y]; the only effect is the log
    of the reading. *)
Theorem empty_inventory_division :
  size (dom (observed empty_env)) = 0%nat
  ∧ run empty_env ["subnets.txt"%string]
    = (Raise ZeroDivisionError,
       mk_state ["------ READ FROM subnets.txt START ------" +:+ nl;
                 "------ READ FROM subnets.txt END ------" +:+ nl] [])
  ∧ run empty_env ["subnets.txt"; "y"]%string
    = (Raise ZeroDivisionError,
       mk_state ["------ READ FROM subnets.txt START ------" +:+ nl;
                 "------ READ FROM subnets.txt END ------" +:+ nl] []).
Proof. vm_compute. repeat split; reflexivity. Qed.

(** On every empty inventory the run never passes the gate. *)
Lemma empty_inventory_never_returns (w : Env) (args : list string) (st : state) :
  size (dom (observed w)) = 0%nat →
  run w args ≠ (Return (), st).
Proof.
  intros Hempty Hrun. unfold run, opt_import in Hrun. fold init in Hrun.
  destruct (read_phase w args init) as [[I|e] st1] eqn:Hread.
  2:{ by rewrite (bind_raise _ _ _ _ _ Hread) in Hrun. }
  rewrite (bind_return _ _ _ _ _ Hread) in Hrun.
  destruct (reconcile_cases w args I st1)
    as [[e He]|(_ & _ & U & _ & Hgate & _)]; [congruence|].
  by rewrite (gate_empty args _ U (observed w) st1 Hempty) in Hgate.
Qed.

(** ** The overlap check *)

(** C2. Evaluation at the scenario of the specification: the server has
    10.0.0.0/16, the file keeps it and defines the new 10.0.2.0/24. The
    two networks overlap, yet the run returns, nothing about an overlap is
    logged, and the new subnet is posted. *)
Theorem overlap_scenario_creates :
  (∃ new existing,
     ip_network overlap_env "10.0.2.0/24" = Some new
     ∧ ip_network overlap_env "10.0.0.0/16" = Some existing
     ∧ Ip.overlaps new existing = true)
  ∧ ("10.0.0.0/16"%string ∈ dom (observed overlap_env))
  ∧ ("10.0.2.0/24"%string ∉ dom (observed overlap_env))
  ∧ run overlap_env ["subnets.txt"%string]
    = (Return (),
       mk_state
         ["------ READ FROM subnets.txt START ------" +:+ nl;
          "------ READ FROM subnets.txt END ------" +:+ nl;
          "------ API REQUESTS START ------" +:+ nl;
          "POST http://localhost:8000/subnets/ - 10.0.2.0/24" +:+ nl;
          "------ API REQUESTS END ------" +:+ nl]
         [POST "http://localhost:8000/subnets/"
            (mk_subnet "10.0.2.0/24" (VStr "new lab") (VInt 0) (VStr "lab")
                       (VStr "bergen") false)]).
Proof.
  split; [|split; [|split]].
  - eexists _, _. repeat split; vm_compute; reflexivity.
  - vm_compute. reflexivity.
  - vm_compute. discriminate.
  - vm_compute. reflexivity.
Qed.

(** ** The requests *)

Lemma Forall2_phase (R : string → request → Prop) (k : nat) xs cs :
  (∀ r c, R r c → phase c = k) →
  Forall2 R xs cs → Forall (λ c, phase c = k) cs.
Proof.
  intros HR H. induction H as [|r c xs cs Hrc _ IH]; constructor; eauto.
Qed.

(** In three blocks of phases 0, 1 and 2, a call of a lower phase comes
    before any call of a higher one. *)
Lemma phases_in_order (l0 l1 l2 : list request) i j ci cj :
  Forall (λ c, phase c = 0%nat) l0 →
  Forall (λ c, phase c = 1%nat) l1 →
  Forall (λ c, phase c = 2%nat) l2 →
  (l0 ++ l1 ++ l2) !! i = Some ci →
  (l0 ++ l1 ++ l2) !! j = Some cj →
  (phase ci < phase cj)%nat → (i < j)%nat.
Proof.
  intros H0 H1 H2 Hi Hj Hlt.
  rewrite Forall_lookup in H0, H1, H2.
  apply lookup_app_Some in Hi as [Hi|[Hi0 Hi]];
    [|apply lookup_app_Some in Hi as [Hi|[Hi1 Hi]]];
    (apply lookup_app_Some in Hj as [Hj|[Hj0 Hj]];
      [|apply lookup_app_Some in Hj as [Hj|[Hj1 Hj]]]);
    repeat match goal with
      | Hl : ?l !! _ = Some ?c, HF : ∀ i x, ?l !! i = Some x → _ |- _ =>
          pose proof (HF _ _ Hl); pose proof (lookup_lt_Some _ _ _ Hl); clear Hl
      end;
    lia.
Qed.

(** C7. When the plan is accepted (the run returns), the calls issued are
    the [DELETE]s, one per range to delete, then the [POST]s, one per range
    to create, then the [PATCH]es, one per range to update; no call of a
    later phase precedes a call of an earlier one. *)
Theorem execution_order (w : Env) (args : list string) (st : state) :
  run w args = (Return (), st) →
  ∃ I st1 toDelete toCreate toUpdate deletes posts patches,
    read_phase w args init = (Return I, st1)
    ∧ diff w (observed w) I init = (Return (toDelete, toCreate, toUpdate), init)
    ∧ calls st = deletes ++ posts ++ patches
    ∧ one_per_range toDelete (delete_call w) deletes
    ∧ one_per_range toCreate (post_call w I) posts
    ∧ one_per_range toUpdate (patch_call w I) patches
    ∧ ∀ i j ci cj,
        calls st !! i = Some ci → calls st !! j = Some cj →
        (phase ci < phase cj)%nat → (i < j)%nat.
Proof.
  intros Hrun.
  destruct (run_returns w args st Hrun)
    as (I & st1 & U & posts & patches & Hread & Hdiff & _ & Hposts & Hpatches & Hcalls).
  exists I, st1, (dom (observed w) ∖ dom I), (dom I ∖ dom (observed w)), U,
    (delete_calls w (iter w (dom (observed w) ∖ dom I))), posts, patches.
  assert (Hdel : Forall2 (delete_call w) (iter w (dom (observed w) ∖ dom I))
                   (delete_calls w (iter w (dom (observed w) ∖ dom I)))).
  { unfold delete_calls. apply Forall2_fmap_r, Forall_Forall2_diag, Forall_forall.
    intros r _. reflexivity. }
  repeat (split; [done|]).
  split; [by eexists; split; [apply iter_perm|]|].
  split; [by eexists; split; [apply iter_perm|]|].
  split; [by eexists; split; [apply iter_perm|]|].
  intros i j ci cj. rewrite Hcalls.
  apply phases_in_order.
  - apply (Forall2_phase (delete_call w) _ _ _) with (2 := Hdel).
    intros r c Hc. by rewrite Hc.
  - apply (Forall2_phase (post_call w I) _ _ _) with (2 := Hposts).
    intros r c (d & _ & Hc). by rewrite Hc.
  - apply (Forall2_phase (patch_call w I) _ _ _) with (2 := Hpatches).
    intros r c (d & _ & Hc). by rewrite Hc.
Qed.

Lemma execution_order_witness :
  calls (run three_phase_env ["subnets.txt"; "y"]%string).2
  = [DELETE "http://localhost:8000/subnets/10.0.1.0/24";
     POST "http://localhost:8000/subnets/"
       (mk_subnet "10.0.2.0/24" (VStr "new lab") (VInt 0) (VStr "lab")
                  (VStr "bergen") false);
     PATCH "http://localhost:8000/subnets/10.0.0.0/16"
       [("description", VStr "main campus"); ("vlan", VInt 0);
        ("category", VStr "office"); ("location", VStr "oslo")]%string]
  ∧ ∃ I st1 toDelete toCreate toUpdate deletes posts patches,
    read_phase three_phase_env ["subnets.txt"; "y"]%string init = (Return I, st1)
    ∧ diff three_phase_env (observed three_phase_env) I init
      = (Return (toDelete, toCreate, toUpdate), init)
    ∧ calls (run three_phase_env ["subnets.txt"; "y"]%string).2
      = deletes ++ posts ++ patches
    ∧ one_per_range toDelete (delete_call three_phase_env) deletes
    ∧ one_per_range toCreate (post_call three_phase_env I) posts
    ∧ one_per_range toUpdate (patch_call three_phase_env I) patches
    ∧ ∀ i j ci cj,
        calls (run three_phase_env ["subnets.txt"; "y"]%string).2 !! i = Some ci →
        calls (run three_phase_env ["subnets.txt"; "y"]%string).2 !! j = Some cj →
        (phase ci < phase cj)%nat → (i < j)%nat.
Proof.
  split; [vm_compute; reflexivity|].
  apply (execution_order three_phase_env ["subnets.txt"; "y"]%string).
  vm_compute. reflexivity.
Defined.

(** C6, as the code has it. When the run returns, every [PATCH] it issued
    is for a range to update and carries the four fields description,
    vlan, category and location with the values of the imported record,
    changed or not. *)
Theorem patch_carries_four_fields (w : Env) (args : list string) (st : state)
    (url : string) (kwargs : list (string * value)) :
  run w args = (Return (), st) →
  PATCH url kwargs ∈ calls st →
  ∃ I st1 r data,
    read_phase w args init = (Return I, st1)
    ∧ r ∈ dom (observed w) ∩ dom I
    ∧ changed (observed w) I r
    ∧ I !! r = Some data
    ∧ url = subnet_url w r
    ∧ kwargs = [("description", description data); ("vlan", vlan data);
                ("category", category data); ("location", location data)]%string.
Proof.
  intros Hrun Hin.
  destruct (run_returns w args st Hrun)
    as (I & st1 & U & posts & patches & Hread & _ & HU & Hposts & Hpatches & Hcalls).
  rewrite Hcalls in Hin.
  apply elem_of_app in Hin as [Hin|Hin].
  { unfold delete_calls in Hin. apply list_elem_of_fmap in Hin as (? & ? & _). done. }
  apply elem_of_app in Hin as [Hin|Hin].
  { apply list_elem_of_lookup in Hin as [i Hi].
    destruct (Forall2_lookup_r _ _ _ _ _ Hposts Hi) as (r & _ & d & _ & ?). done. }
  apply list_elem_of_lookup in Hin as [i Hi].
  destruct (Forall2_lookup_r _ _ _ _ _ Hpatches Hi) as (r & Hr & data & Hdata & Heq).
  injection Heq as -> ->.
  apply list_elem_of_lookup_2, iter_elem_of, HU in Hr as [Hr Hch].
  by exists I, st1, r, data.
Qed.

Lemma patch_carries_four_fields_witness :
  ∃ I st1 r data,
    read_phase rename_env ["subnets.txt"; "y"]%string init = (Return I, st1)
    ∧ r ∈ dom (observed rename_env) ∩ dom I
    ∧ changed (observed rename_env) I r
    ∧ I !! r = Some data
    ∧ "http://localhost:8000/subnets/10.0.0.0/16"%string = subnet_url rename_env r
    ∧ [("description", VStr "main campus"); ("vlan", VInt 0);
       ("category", VStr "office"); ("location", VStr "oslo")]%string
      = [("description", description data); ("vlan", vlan data);
         ("category", category data); ("location", location data)]%string.
Proof.
  apply (patch_carries_four_fields rename_env ["subnets.txt"; "y"]%string
           (run rename_env ["subnets.txt"; "y"]%string).2).
  - vm_compute. reflexivity.
  - vm_compute. left.
Defined.

(** C6, as stated, fails: the file changes only the description of
    10.0.0.0/16, and the [PATCH] carries the unchanged vlan as well. *)
Lemma patch_sends_unchanged_fields :
  ¬ patches_only_changed rename_env ["subnets.txt"; "y"]%string.
Proof.
  intros H.
  destruct (H "http://localhost:8000/subnets/10.0.0.0/16"%string
              [("description", VStr "main campus"); ("vlan", VInt 0);
               ("category", VStr "office"); ("location", VStr "oslo")]%string
              "10.0.0.0/16"%string campus) with (v := VInt 0) as (_ & Hvlan & _).
  - vm_compute. left.
  - vm_compute. reflexivity.
  - vm_compute. reflexivity.
  - apply Hvlan; [|reflexivity]. right. left.
Qed.

(** ** The lines of the file *)




(** * Further properties of the import *)

Section import_outcomes.
Context (w : Env).

Lemma over_threshold_cases (D U : gset string) (O : gmap string subnet) st :
  (∃ over, over_threshold D U O st = (Return over, st))
  ∨ over_threshold D U O st = (Raise ZeroDivisionError, st).
Proof.
  unfold over_threshold.
  destruct (Float.truediv _ _); [left; by eexists|by right].
Qed.

(** Without [ERROR] the gate returns or raises one of two exceptions. *)
Lemma gate_outcomes args (D U : gset string) (O : gmap string subnet) st :
  gate args false D U O st = (Return (), st)
  ∨ gate args false D U O st = (Raise ZeroDivisionError, st)
  ∨ gate args false D U O st = (Raise (CliWarning requires_force), st).
Proof.
  unfold gate.
  rewrite (bind_return (mret ()) _ st () st) by reflexivity.
  destruct (over_threshold_cases D U O st) as [[over H]|H].
  - rewrite (bind_return _ _ _ _ _ H).
    destruct (over && _); [right; right|left]; reflexivity.
  - right; left. by apply bind_raise.
Qed.

(** The second part of the import stops in one of four ways, in the state
    it started from, or passes the gate and goes on with the requests. *)
Lemma reconcile_outcomes args I st :
  (∃ e, e ∈ [TypeError; ValueError; ZeroDivisionError; CliWarning requires_force]
        ∧ reconcile w args I st = (Raise e, st))
  ∨ ((∀ r, r ∈ dom (observed w) ∖ dom I → get_subnet_used_list w r = [])
     ∧ (∀ r, r ∈ dom I ∖ dom (observed w) → is_Some (ip_network w r))
     ∧ ∃ U, (∀ x, x ∈ U ↔ x ∈ dom (observed w) ∩ dom I ∧ changed (observed w) I x)
       ∧ gate args false (dom (observed w) ∖ dom I) U (observed w) st = (Return (), st)
       ∧ reconcile w args I st
         = apply_requests w I (dom (observed w) ∖ dom I) (dom I ∖ dom (observed w)) U st).
Proof.
  destruct (decide (Forall (λ r, get_subnet_used_list w r = [])
                      (iter w (dom (observed w) ∖ dom I)))) as [Hfree|Hused].
  2:{ left. exists TypeError. split; [set_solver|].
      apply not_Forall_Exists in Hused; [|apply _].
      apply Exists_exists in Hused as (r & Hr & Hne). cbn in Hne.
      apply (reconcile_in_use _ _ _ _ r); [by apply (iter_elem_of w)|done]. }
  assert (Hfree' : ∀ r, r ∈ dom (observed w) ∖ dom I → get_subnet_used_list w r = []).
  { intros r Hr. rewrite Forall_forall in Hfree. by apply Hfree, iter_elem_of. }
  destruct (decide (Forall (λ r, is_Some (ip_network w r))
                      (iter w (dom I ∖ dom (observed w))))) as [Hparse|Hbad].
  2:{ left. exists ValueError. split; [set_solver|].
      unfold reconcile. fold (observed w).
      rewrite (bind_return _ _ _ _ _ (in_use_loop_free w _ false st Hfree')).
      apply bind_raise.
      apply not_Forall_Exists in Hbad; [|apply _].
      apply Exists_exists in Hbad as (r & Hr & Hnone).
      apply for_raise.
      - intros x _. rewrite check_overlap_empty. destruct (ip_network w x); eauto.
      - exists r. split; [done|]. rewrite check_overlap_empty.
        cbn in Hnone. destruct (ip_network w r); [|done].
        exfalso. apply Hnone. by eexists. }
  assert (Hparse' : ∀ r, r ∈ dom I ∖ dom (observed w) → is_Some (ip_network w r)).
  { intros r Hr. rewrite Forall_forall in Hparse. by apply Hparse, iter_elem_of. }
  destruct (reconcile_checked w args I st Hfree' Hparse') as (U & _ & HU & Heq).
  destruct (gate_outcomes args (dom (observed w) ∖ dom I) U (observed w) st)
    as [Hgate|[Hgate|Hgate]].
  - right. split; [done|]. split; [done|]. exists U. split; [done|]. split; [done|].
    rewrite Heq. by rewrite (bind_return _ _ _ _ _ Hgate).
  - left. exists ZeroDivisionError. split; [set_solver|].
    rewrite Heq. by apply bind_raise.
  - left. exists (CliWarning requires_force). split; [set_solver|].
    rewrite Heq. by apply bind_raise.
Qed.

End import_outcomes.

(** X1. Requests are issued by the three loops at the end and nowhere else: a
    run that has issued any request, whether it then returned or not, has
    read the file, found no range to delete in use, parsed every new
    range as a network and passed the gate, all without a request, and is
    from there on the run of the request loops. *)
Theorem requests_only_after_checks (w : Env) (args : list string) :
  calls (run w args).2 ≠ [] →
  ∃ I st1 toUpdate,
    read_phase w args init = (Return I, st1)
    ∧ calls st1 = []
    ∧ (∀ r, r ∈ dom (observed w) ∖ dom I → get_subnet_used_list w r = [])
    ∧ (∀ r, r ∈ dom I ∖ dom (observed w) → is_Some (ip_network w r))
    ∧ (∀ x, x ∈ toUpdate ↔ x ∈ dom (observed w) ∩ dom I ∧ changed (observed w) I x)
    ∧ gate args false (dom (observed w) ∖ dom I) toUpdate (observed w) st1
      = (Return (), st1)
    ∧ run w args
      = apply_requests w I (dom (observed w) ∖ dom I) (dom I ∖ dom (observed w))
          toUpdate st1.
Proof.
  unfold run, opt_import. fold init. intros Hcalls.
  destruct (read_phase w args init) as [[I|e] st1] eqn:Hread;
    destruct (read_phase_calls w args init _ _ Hread) as [Hst1 _].
  2:{ rewrite (bind_raise _ _ _ _ _ Hread) in Hcalls. simpl in Hcalls.
      by rewrite Hst1 in Hcalls. }
  rewrite (bind_return _ _ _ _ _ Hread) in Hcalls |- *.
  destruct (reconcile_outcomes w args I st1)
    as [(e & _ & He)|(Hfree & Hparse & U & HU & Hgate & Heq)].
  { rewrite He in Hcalls. simpl in Hcalls. by rewrite Hst1 in Hcalls. }
  by exists I, st1, U.
Qed.

(** X2. Once the file has been read, the checks and the gate stop the run in
    four ways only: [TypeError] (a range to delete is in use),
    [ValueError] (a new range is not a network), [ZeroDivisionError] (the
    inventory is empty) or the warning that force is required; each time
    the log is as the reading left it. The warning "Errors detected
    during setup" is never raised and no key is ever missing. Otherwise
    the gate is passed and the run goes on with the request loops. *)
Theorem checks_failure_modes (w : Env) (args : list string)
    (I : gmap string subnet) (st1 : state) :
  read_phase w args init = (Return I, st1) →
  (∃ e, e ∈ [TypeError; ValueError; ZeroDivisionError; CliWarning requires_force]
        ∧ run w args = (Raise e, st1))
  ∨ (∃ toUpdate,
       (∀ x, x ∈ toUpdate ↔ x ∈ dom (observed w) ∩ dom I ∧ changed (observed w) I x)
       ∧ gate args false (dom (observed w) ∖ dom I) toUpdate (observed w) st1
         = (Return (), st1)
       ∧ run w args
         = apply_requests w I (dom (observed w) ∖ dom I) (dom I ∖ dom (observed w))
             toUpdate st1).
Proof.
  intros Hread. unfold run, opt_import. fold init.
  rewrite (bind_return _ _ _ _ _ Hread).
  destruct (reconcile_outcomes w args I st1)
    as [(e & He & Hrun)|(_ & _ & U & HU & Hgate & Heq)].
  - left. by exists e.
  - right. by exists U.
Qed.

Lemma requests_only_after_checks_witness :
  ∃ I st1 toUpdate,
    read_phase three_phase_env ["subnets.txt"; "y"]%string init = (Return I, st1)
    ∧ calls st1 = []
    ∧ (∀ r, r ∈ dom (observed three_phase_env) ∖ dom I
            → get_subnet_used_list three_phase_env r = [])
    ∧ (∀ r, r ∈ dom I ∖ dom (observed three_phase_env)
            → is_Some (ip_network three_phase_env r))
    ∧ (∀ x, x ∈ toUpdate
            ↔ x ∈ dom (observed three_phase_env) ∩ dom I
              ∧ changed (observed three_phase_env) I x)
    ∧ gate ["subnets.txt"; "y"]%string false (dom (observed three_phase_env) ∖ dom I)
        toUpdate (observed three_phase_env) st1
      = (Return (), st1)
    ∧ run three_phase_env ["subnets.txt"; "y"]%string
      = apply_requests three_phase_env I (dom (observed three_phase_env) ∖ dom I)
          (dom I ∖ dom (observed three_phase_env)) toUpdate st1.
Proof.
  apply (requests_only_after_checks three_phase_env ["subnets.txt"; "y"]%string).
  intros H. vm_compute in H. discriminate H.
Defined.

Lemma checks_failure_modes_witness :
  (∃ e, e ∈ [TypeError; ValueError; ZeroDivisionError; CliWarning requires_force]
        ∧ run drop_env ["subnets.txt"%string]
          = (Raise e,
             mk_state ["------ READ FROM subnets.txt START ------" +:+ nl;
                       "------ READ FROM subnets.txt END ------" +:+ nl] []))
  ∨ (∃ toUpdate,
       (∀ x, x ∈ toUpdate
             ↔ x ∈ dom (observed drop_env) ∩ dom (∅ : gmap string subnet)
               ∧ changed (observed drop_env) ∅ x)
       ∧ gate ["subnets.txt"%string] false
           (dom (observed drop_env) ∖ dom (∅ : gmap string subnet)) toUpdate
           (observed drop_env)
           (mk_state ["------ READ FROM subnets.txt START ------" +:+ nl;
                      "------ READ FROM subnets.txt END ------" +:+ nl] [])
         = (Return (),
            mk_state ["------ READ FROM subnets.txt START ------" +:+ nl;
                      "------ READ FROM subnets.txt END ------" +:+ nl] [])
       ∧ run drop_env ["subnets.txt"%string]
         = apply_requests drop_env ∅
             (dom (observed drop_env) ∖ dom (∅ : gmap string subnet))
             (dom (∅ : gmap string subnet) ∖ dom (observed drop_env)) toUpdate
             (mk_state ["------ READ FROM subnets.txt START ------" +:+ nl;
                        "------ READ FROM subnets.txt END ------" +:+ nl] [])).
Proof.
  apply (checks_failure_modes drop_env ["subnets.txt"%string] ∅).
  vm_compute. reflexivity.
Defined.

(** X21. On a non-empty inventory (of fewer than 2^52 subnets, where the
    float quotient compares as the exact one), once the two checks have
    passed, the gate stops the run exactly when
    [(|toDelete| + |toUpdate|) / |observed| > 0.2], that is
    [|observed| < 5 * (|toDelete| + |toUpdate|)], and [y] is not among the
    arguments: the run then raises the warning that force is required,
    with no call issued. At a ratio of exactly 0.2 or below, or with [y],
    the run goes on with the request loops. *)
Theorem blast_radius_gate (w : Env) (args : list string)
    (I : gmap string subnet) (st1 : state) :
  read_phase w args init = (Return I, st1) →
  (∀ r, r ∈ dom (observed w) ∖ dom I → get_subnet_used_list w r = []) →
  (∀ r, r ∈ dom I ∖ dom (observed w) → is_Some (ip_network w r)) →
  (0 < size (dom (observed w)))%nat →
  Z.of_nat (size (dom (observed w))) < 2 ^ 52 →
  ∃ toDelete toCreate toUpdate,
    diff w (observed w) I init = (Return (toDelete, toCreate, toUpdate), init)
    ∧ ((size (dom (observed w)) < 5 * (size toDelete + size toUpdate))%nat
       ∧ "y"%string ∉ args →
       run w args = (Raise (CliWarning requires_force), st1) ∧ calls st1 = [])
    ∧ (¬ ((size (dom (observed w)) < 5 * (size toDelete + size toUpdate))%nat
          ∧ "y"%string ∉ args) →
       run w args = apply_requests w I toDelete toCreate toUpdate st1).
Proof.
  intros Hread Hfree Hparse Hpos Hbig.
  destruct (read_phase_calls w args init _ _ Hread) as [Hcalls _].
  destruct (reconcile_checked w args I st1 Hfree Hparse) as (U & _ & HU & Heq).
  destruct (diff_eq w (observed w) I init) as (U' & Hdiff & _ & HU').
  assert (U' = U) as -> by (apply set_eq; intros x; by rewrite HU, HU').
  exists (dom (observed w) ∖ dom I), (dom I ∖ dom (observed w)), U.
  split; [done|].
  assert (Hsize : (size (dom (observed w) ∖ dom I) + size U
                   ≤ size (dom (observed w)))%nat).
  { apply plan_size. intros x Hx%HU. tauto. }
  pose proof (gate_exact args (dom (observed w) ∖ dom I) U (observed w) st1
                ltac:(lia) Hsize Hbig) as Hgate.
  unfold run, opt_import. fold init.
  rewrite (bind_return _ _ _ _ _ Hread), Heq.
  split.
  - intros Hblock. rewrite bool_decide_eq_true_2 in Hgate by done.
    split; [by apply bind_raise|done].
  - intros Hgo. rewrite bool_decide_eq_false_2 in Hgate by done.
    by rewrite (bind_return _ _ _ _ _ Hgate).
Qed.

Lemma blast_radius_gate_witness :
  ∃ toDelete toCreate toUpdate,
    diff drop_env (observed drop_env) ∅ init
    = (Return (toDelete, toCreate, toUpdate), init)
    ∧ ((size (dom (observed drop_env)) < 5 * (size toDelete + size toUpdate))%nat
       ∧ "y"%string ∉ ["subnets.txt"%string] →
       run drop_env ["subnets.txt"%string]
       = (Raise (CliWarning requires_force),
          mk_state ["------ READ FROM subnets.txt START ------" +:+ nl;
                    "------ READ FROM subnets.txt END ------" +:+ nl] [])
       ∧ calls (mk_state ["------ READ FROM subnets.txt START ------" +:+ nl;
                          "------ READ FROM subnets.txt END ------" +:+ nl] []) = [])
    ∧ (¬ ((size (dom (observed drop_env)) < 5 * (size toDelete + size toUpdate))%nat
          ∧ "y"%string ∉ ["subnets.txt"%string]) →
       run drop_env ["subnets.txt"%string]
       = apply_requests drop_env ∅ toDelete toCreate toUpdate
           (mk_state ["------ READ FROM subnets.txt START ------" +:+ nl;
                      "------ READ FROM subnets.txt END ------" +:+ nl] [])).
Proof.
  apply (blast_radius_gate drop_env ["subnets.txt"%string] ∅).
  - vm_compute. reflexivity.
  - intros r _. reflexivity.
  - intros r Hr. exfalso. revert Hr. rewrite dom_empty_L. set_solver.
  - vm_compute. lia.
  - vm_compute. reflexivity.
Defined.

Section file_reading.
Context (w : Env).

Lemma for_app {A S} (body : S → A → M S) xs ys s st :
  for_ (xs ++ ys) body s st = (for_ xs body s ≫= for_ ys body) st.
Proof.
  revert s st. induction xs as [|x xs IH]; intros s st; simpl.
  - reflexivity.
  - unfold mbind, M_bind. destruct (body s x st) as [[s'|e] st']; [|done].
    apply IH.
Qed.

Lemma read_line_match vlans n I line range tags descr st :
  Re.match_line line = Some (range, tags, descr) →
  read_line w vlans (n, I) line st
  = (Return (S n, <[range := make_data vlans range descr (resolved w tags)]> I),
     mk_state (log_file st
               ++ (invalid_tag w (S n) <$> tags_of_kind w Unrecognized (PyStr.split ":" tags)))
              (calls st)).
Proof.
  intros Hm. unfold read_line. rewrite Hm.
  rewrite (bind_return _ _ _ _ _ (tag_loop w (S n) _ (None, EmptyString) st)).
  unfold resolved. simpl. by destruct (last _).
Qed.

Lemma read_line_skip vlans n I line st :
  Re.match_line line = None →
  read_line w vlans (n, I) line st = (Return (S n, I), st).
Proof. intros Hm. unfold read_line. by rewrite Hm. Qed.

(** What the loop over the lines keeps: the count of lines read, the log
    growing at its end, and a property of the records that every stored
    record has. *)
Lemma read_lines_inv (P : string → subnet → Prop) vlans lines n I st :
  (∀ range descr info, P range (make_data vlans range descr info)) →
  map_Forall P I →
  ∃ I' written,
    for_ lines (read_line w vlans) (n, I) st
    = (Return ((n + length lines)%nat, I'),
       mk_state (log_file st ++ written) (calls st))
    ∧ map_Forall P I'.
Proof.
  intros HP. revert n I st. induction lines as [|line lines IH]; intros n I st HI.
  - exists I, []. rewrite app_nil_r, Nat.add_0_r. by destruct st.
  - replace (n + length (line :: lines))%nat with (S n + length lines)%nat
      by (simpl; lia).
    destruct (Re.match_line line) as [[[range tags] descr]|] eqn:Hm.
    + rewrite (for_cons_return _ _ _ _ _ _ _ (read_line_match vlans n I line _ _ _ st Hm)).
      edestruct (IH (S n)) as (I' & written & -> & HI').
      { apply map_Forall_insert_2; [apply HP|exact HI]. }
      eexists I', _. simpl. rewrite <- app_assoc. done.
    + rewrite (for_cons_return _ _ _ _ _ _ _ (read_line_skip vlans n I line st Hm)).
      edestruct (IH (S n) I st HI) as (I' & written & -> & HI').
      by eexists I', _.
Qed.

(** Every imported record is stored under its own range and is not
    frozen. *)
Lemma read_phase_records args st I st' :
  read_phase w args st = (Return I, st') →
  map_Forall (λ r d, range d = r ∧ frozen d = false) I.
Proof.
  unfold read_phase. intros H.
  destruct (open_r w (input_file w args)) as [file|]; [|done].
  unfold read_file in H.
  destruct (read_lines_inv (λ r d, range d = r ∧ frozen d = false)
              (get_vlan_mapping w) file 0 ∅
              (mk_state (log_file st ++ ["------ READ FROM " +:+ input_file w args
                                         +:+ " START ------" +:+ nl]) (calls st)))
    as (I' & written & Hloop & HI'); [done|apply map_Forall_empty|].
  revert H. unfold mbind, M_bind, write at 1. rewrite Hloop. simpl.
  intros [= <- <-]. exact HI'.
Qed.

End file_reading.

Section file_reading_more.
Context (w : Env).

Lemma read_lines_keep vlans lines n I st range d :
  I !! range = Some d →
  (∀ l r t x, l ∈ lines → Re.match_line l = Some (r, t, x) → r ≠ range) →
  ∃ I' written,
    for_ lines (read_line w vlans) (n, I) st
    = (Return ((n + length lines)%nat, I'),
       mk_state (log_file st ++ written) (calls st))
    ∧ I' !! range = Some d.
Proof.
  revert n I st. induction lines as [|line lines IH]; intros n I st HI Hno.
  - exists I, []. rewrite app_nil_r, Nat.add_0_r. by destruct st.
  - replace (n + length (line :: lines))%nat with (S n + length lines)%nat
      by (simpl; lia).
    assert (Hno' : ∀ l r t x, l ∈ lines → Re.match_line l = Some (r, t, x) → r ≠ range).
    { intros l r t x Hl. apply Hno. by right. }
    destruct (Re.match_line line) as [[[r tags] descr]|] eqn:Hm.
    + rewrite (for_cons_return _ _ _ _ _ _ _ (read_line_match w vlans n I line _ _ _ st Hm)).
      edestruct (IH (S n)) as (I' & written & -> & HI'); [|exact Hno'|].
      { rewrite lookup_insert_ne; [exact HI|]. eapply Hno; [left|exact Hm]. }
      eexists I', _. simpl. rewrite <- app_assoc. done.
    + rewrite (for_cons_return _ _ _ _ _ _ _ (read_line_skip w vlans n I line st Hm)).
      edestruct (IH (S n) I st HI Hno') as (I' & written & -> & HI').
      by eexists I', _.
Qed.

Lemma read_file_eq vlans lines st :
  read_file w vlans lines st
  = match for_ lines (read_line w vlans) (0%nat, ∅) st with
    | (Return acc, st') => (Return acc.2, st')
    | (Raise e, st') => (Raise e, st')
    end.
Proof. reflexivity. Qed.

(** Reading [before ++ line :: after] where [line] matches: the state
    after the lines before, the record and the diagnostics of the line,
    and what the lines after leave in place. *)
Lemma read_file_at vlans before line after range tags descr st :
  Re.match_line line = Some (range, tags, descr) →
  ∃ I st',
    read_file w vlans (before ++ line :: after) st = (Return I, st')
    ∧ (∀ tag, tag ∈ tags_of_kind w Unrecognized (PyStr.split ":" tags) →
              invalid_tag w (S (length before)) tag ∈ log_file st')
    ∧ ((∀ l r t x, l ∈ after → Re.match_line l = Some (r, t, x) → r ≠ range) →
       I !! range = Some (make_data vlans range descr (resolved w tags))).
Proof.
  intros Hm. rewrite read_file_eq, for_app.
  destruct (read_lines_inv w (λ _ _, True) vlans before 0 ∅ st)
    as (I1 & w1 & H1 & _); [done|apply map_Forall_empty|].
  rewrite (bind_return _ _ _ _ _ H1).
  rewrite (for_cons_return _ _ _ _ _ _ _
             (read_line_match w vlans _ I1 line _ _ _ _ Hm)).
  simpl plus.
  set (d := make_data vlans range descr (resolved w tags)).
  set (st2 := mk_state _ _).
  destruct (read_lines_inv w (λ _ _, True) vlans after (S (length before))
              (<[range := d]> I1) st2)
    as (I' & w2 & Hafter & _); [done|by apply map_Forall_insert_2|].
  rewrite Hafter.
  eexists _, _. split; [reflexivity|]. simpl. split.
  - intros tag Htag. apply elem_of_app. left. apply elem_of_app. right.
    by apply list_elem_of_fmap_2.
  - intros Hno.
    destruct (read_lines_keep vlans after (S (length before)) (<[range := d]> I1) st2 range d)
      as (I'' & w3 & Hkeep & HI''); [apply lookup_insert_eq|exact Hno|].
    rewrite Hafter in Hkeep. by simplify_eq.
Qed.

End file_reading_more.

(** X3. When several lines of the file define the same range, the record kept
    is that of the last one: its description stripped, its tags resolved,
    the vlan of the mapping or 0. Earlier lines for the range leave no
    trace in the imported data. *)
Theorem later_line_wins (w : Env) (vlans : gmap string value)
    (before after : list string) (line range tags descr : string) (st : state) :
  Re.match_line line = Some (range, tags, descr) →
  (∀ l r t x, l ∈ after → Re.match_line l = Some (r, t, x) → r ≠ range) →
  ∃ I st',
    read_file w vlans (before ++ line :: after) st = (Return I, st')
    ∧ I !! range = Some (make_data vlans range descr (resolved w tags)).
Proof.
  intros Hm Hno.
  destruct (read_file_at w vlans before line after range tags descr st Hm)
    as (I & st' & Hread & _ & HI).
  exists I, st'. split; [done|]. by apply HI.
Qed.

Lemma later_line_wins_witness :
  ∃ I st',
    read_file overlap_env ∅ ([old_lab_line; campus_line] ++ lab_line :: [junk_line]) init
    = (Return I, st')
    ∧ I !! "10.0.2.0/24"%string
      = Some (make_data ∅ "10.0.2.0/24" "new lab" (resolved overlap_env "bergen:lab")).
Proof.
  apply (later_line_wins overlap_env ∅ [old_lab_line; campus_line] [junk_line]
           lab_line "10.0.2.0/24" "bergen:lab" "new lab" init).
  - vm_compute. reflexivity.
  - intros l r t x Hl Hm. apply list_elem_of_singleton in Hl. subst l.
    vm_compute in Hm. discriminate.
Defined.

(** X4. The number in a diagnostic is the position of the line in the file,
    counted from 1, lines that do not match the pattern included. *)
Theorem diagnostic_line_number (w : Env) (vlans : gmap string value)
    (before after : list string) (line range tags descr tag : string) (st : state) :
  Re.match_line line = Some (range, tags, descr) →
  tag ∈ PyStr.split ":" tags →
  is_valid_location_tag w tag = false →
  is_valid_category_tag w tag = false →
  ∃ I st',
    read_file w vlans (before ++ line :: after) st = (Return I, st')
    ∧ (pretty (S (length before)) +:+ ": Invalid tag " +:+ tag
       +:+ ". Valid tags can be found in " +:+ tag_file w +:+ nl) ∈ log_file st'.
Proof.
  intros Hm Htag Hloc Hcat.
  destruct (read_file_at w vlans before line after range tags descr st Hm)
    as (I & st' & Hread & Hlog & _).
  exists I, st'. split; [done|]. apply (Hlog tag).
  unfold tags_of_kind. apply list_elem_of_filter. split; [|done].
  unfold classify. by rewrite Hloc, Hcat.
Qed.

Lemma diagnostic_line_number_witness :
  ∃ I st',
    read_file overlap_env ∅ ([junk_line; campus_line] ++ typo_line :: [lab_line]) init
    = (Return I, st')
    ∧ ("3: Invalid tag labb. Valid tags can be found in tags.txt" +:+ nl) ∈ log_file st'.
Proof.
  apply (diagnostic_line_number overlap_env ∅ [junk_line; campus_line] [lab_line]
           typo_line "10.0.3.0/24" "bergen:labb" "annex" "labb" init).
  - vm_compute. reflexivity.
  - vm_compute. right. left.
  - vm_compute. reflexivity.
  - vm_compute. reflexivity.
Defined.

(** X5. Every [POST] of an import that returns is sent to the collection URL
    and carries an imported record whose range is new to the server,
    with [frozen] false. *)
Theorem posted_records (w : Env) (args : list string) (st : state)
    (url : string) (kwargs : subnet) :
  run w args = (Return (), st) →
  POST url kwargs ∈ calls st →
  ∃ I st1,
    read_phase w args init = (Return I, st1)
    ∧ I !! range kwargs = Some kwargs
    ∧ (range kwargs ∉ dom (observed w))
    ∧ frozen kwargs = false
    ∧ url = ("http://" +:+ server_ip w +:+ ":" +:+ server_port w +:+ "/subnets/")%string.
Proof.
  intros Hrun Hin.
  destruct (run_returns w args st Hrun)
    as (I & st1 & U & posts & patches & Hread & _ & HU & Hposts & Hpatches & Hcalls).
  pose proof (read_phase_records w args init I st1 Hread) as Hrec.
  rewrite Hcalls in Hin.
  apply elem_of_app in Hin as [Hin|Hin].
  { unfold delete_calls in Hin. apply list_elem_of_fmap in Hin as (? & ? & _). done. }
  apply elem_of_app in Hin as [Hin|Hin].
  2:{ apply list_elem_of_lookup in Hin as [i Hi].
      destruct (Forall2_lookup_r _ _ _ _ _ Hpatches Hi) as (r & _ & d & _ & ?). done. }
  apply list_elem_of_lookup in Hin as [i Hi].
  destruct (Forall2_lookup_r _ _ _ _ _ Hposts Hi) as (r & Hr & data & Hdata & Heq).
  injection Heq as -> ->.
  apply list_elem_of_lookup_2, iter_elem_of in Hr.
  destruct (Hrec r data Hdata) as [Hrange Hfrozen].
  exists I, st1. rewrite Hrange.
  split; [done|]. split; [done|]. split; [set_solver|]. split; [done|].
  reflexivity.
Qed.

Lemma posted_records_witness :
  ∃ I st1,
    read_phase overlap_env ["subnets.txt"%string] init = (Return I, st1)
    ∧ I !! "10.0.2.0/24"%string
      = Some (mk_subnet "10.0.2.0/24" (VStr "new lab") (VInt 0) (VStr "lab")
                        (VStr "bergen") false)
    ∧ ("10.0.2.0/24"%string ∉ dom (observed overlap_env))
    ∧ false = false
    ∧ "http://localhost:8000/subnets/"%string
      = ("http://" +:+ server_ip overlap_env +:+ ":" +:+ server_port overlap_env
         +:+ "/subnets/")%string.
Proof.
  apply (posted_records overlap_env ["subnets.txt"%string]
           (run overlap_env ["subnets.txt"%string]).2
           "http://localhost:8000/subnets/"
           (mk_subnet "10.0.2.0/24" (VStr "new lab") (VInt 0) (VStr "lab")
                      (VStr "bergen") false)).
  - vm_compute. reflexivity.
  - vm_compute. left.
Defined.

(** X6. A new range that [ip_network] refuses (host bits set, an octet above
    255, a prefix above 32) ends the import with [ValueError] before any
    request, once the in-use check has passed; the ranges the server
    already has are never parsed. *)
Theorem invalid_network_aborts (w : Env) (args : list string)
    (I : gmap string subnet) (st1 : state) (r : string) :
  read_phase w args init = (Return I, st1) →
  (∀ x, x ∈ dom (observed w) ∖ dom I → get_subnet_used_list w x = []) →
  r ∈ dom I ∖ dom (observed w) →
  ip_network w r = None →
  run w args = (Raise ValueError, st1) ∧ calls st1 = [].
Proof.
  intros Hread Hfree Hr Hnone.
  destruct (read_phase_calls w args init _ _ Hread) as [Hcalls _].
  split; [|done].
  unfold run, opt_import. fold init.
  rewrite (bind_return _ _ _ _ _ Hread).
  unfold reconcile. fold (observed w).
  rewrite (bind_return _ _ _ _ _ (in_use_loop_free w _ false st1 Hfree)).
  apply bind_raise. apply for_raise.
  - intros x _. rewrite check_overlap_empty. destruct (ip_network w x); eauto.
  - exists r. split; [by apply (iter_elem_of w)|].
    by rewrite check_overlap_empty, Hnone.
Qed.

Lemma invalid_network_aborts_witness :
  run host_bits_env ["subnets.txt"%string]
  = (Raise ValueError,
     mk_state ["------ READ FROM subnets.txt START ------" +:+ nl;
               "------ READ FROM subnets.txt END ------" +:+ nl] [])
  ∧ calls (mk_state ["------ READ FROM subnets.txt START ------" +:+ nl;
                     "------ READ FROM subnets.txt END ------" +:+ nl] []) = [].
Proof.
  apply (invalid_network_aborts host_bits_env ["subnets.txt"%string]
           (<["10.0.2.1/24"%string :=
                mk_subnet "10.0.2.1/24" (VStr "new lab") (VInt 0) (VStr "lab")
                          (VStr "bergen") false]>
              (<["10.0.0.0/16"%string := campus]> ∅))
           _ "10.0.2.1/24"%string).
  - vm_compute. reflexivity.
  - intros x _. reflexivity.
  - vm_compute. reflexivity.
  - vm_compute. reflexivity.
Defined.

(** X7. When the import file cannot be opened, the log has already been
    truncated and holds the start line only; the run ends with [OSError]
    and no request. *)
Theorem missing_file_aborts (w : Env) (args : list string) :
  open_r w (input_file w args) = None →
  run w args
  = (Raise OSError,
     mk_state ["------ READ FROM " +:+ input_file w args +:+ " START ------" +:+ nl] []).
Proof.
  intros Hopen. unfold run, opt_import, read_phase.
  unfold mbind, M_bind, write. simpl. by rewrite Hopen.
Qed.

Lemma missing_file_aborts_witness :
  run overlap_env ["nowhere.txt"%string]
  = (Raise OSError,
     mk_state ["------ READ FROM nowhere.txt START ------" +:+ nl] []).
Proof.
  apply (missing_file_aborts overlap_env ["nowhere.txt"%string]).
  vm_compute. reflexivity.
Defined.

(** * The other commands *)

Section cli_lemmas.
Import Cli.

Lemma cbind_ok {A B} (m : C A) (f : A → C B) c a c' :
  m c = (Ok a, c') → (m ≫= f) c = f a c'.
Proof. intros H. unfold mbind, C_bind. by rewrite H. Qed.

Lemma cbind_err {A B} (m : C A) (f : A → C B) c e c' :
  m c = (Err e, c') → (m ≫= f) c = (Err e, c').
Proof. intros H. unfold mbind, C_bind. by rewrite H. Qed.

End cli_lemmas.

(** Unfolds the monad of the commands in the goal and the hypotheses. *)
Ltac cunfold :=
  unfold Cli.arg_or_input, Cli.input, Cli.cli_warning, Cli.cli_info, Cli.emit,
    Cli.throw, Cli.lift, Cli.to_int, mbind, Cli.C_bind, mret, Cli.C_ret in *.

(** Splits a membership in a concrete trace into its cases. *)
Ltac in_trace H :=
  simpl in H;
  repeat (apply elem_of_cons in H as [H|H]; [try discriminate|]);
  try (by apply elem_of_nil in H).

(** ** [Subnet.opt_remove] *)

(** X8. [subnet remove] deletes only a valid subnet, with no address in use,
    named as first argument, and with [y] among the arguments; in
    particular it never deletes when the subnet is asked at the prompt,
    and [y] does not help when addresses are in use. *)
Theorem subnet_remove_guarded (u : Cli.Util) (args ins : list string)
    (r : Cli.result unit) (c' : Cli.console) (url : string) :
  Subnet.opt_remove u args (Cli.mk_console ins []) = (r, c') →
  Cli.Delete url ∈ Cli.trace c' →
  ∃ ip_range,
    args !! 0%nat = Some ip_range
    ∧ Cli.is_valid_subnet u ip_range = true
    ∧ Cli.get_subnet_used_list u ip_range = []
    ∧ "y"%string ∈ args
    ∧ url = Cli.url_of u "subnets" ip_range.
Proof.
  unfold Subnet.opt_remove. cunfold. intros Hrun Hin.
  destruct args as [|ip_range args]; simpl in Hrun.
  - destruct ins as [|line ins]; simpl in Hrun.
    + simplify_eq. in_trace Hin.
    + destruct (Cli.is_valid_subnet u line); simpl in Hrun;
        [destruct (Cli.get_subnet_used_list u line); simpl in Hrun|];
        simplify_eq; in_trace Hin.
  - exists ip_range.
    destruct (Cli.is_valid_subnet u ip_range); simpl in Hrun;
      [|simplify_eq; in_trace Hin].
    destruct (Cli.get_subnet_used_list u ip_range); simpl in Hrun;
      [|simplify_eq; in_trace Hin].
    case_bool_decide; simpl in Hrun; simplify_eq; in_trace Hin.
    by simplify_eq.
Qed.

Lemma subnet_remove_guarded_witness :
  ∃ ip_range,
    ["10.0.3.0/24"; "y"]%string !! 0%nat = Some ip_range
    ∧ Cli.is_valid_subnet sample_util ip_range = true
    ∧ Cli.get_subnet_used_list sample_util ip_range = []
    ∧ "y"%string ∈ ["10.0.3.0/24"; "y"]%string
    ∧ "http://localhost:8000/subnets/10.0.3.0/24"%string
      = Cli.url_of sample_util "subnets" ip_range.
Proof.
  apply (subnet_remove_guarded sample_util ["10.0.3.0/24"; "y"]%string []
           (Subnet.opt_remove sample_util ["10.0.3.0/24"; "y"]%string
              (Cli.mk_console [] [])).1
           (Subnet.opt_remove sample_util ["10.0.3.0/24"; "y"]%string
              (Cli.mk_console [] [])).2).
  - vm_compute. reflexivity.
  - vm_compute. left.
Defined.

(** X9. Given a valid subnet with no address in use and [y], [subnet remove]
    issues one [DELETE] for it, reports it and returns, without reading
    the input. *)
Theorem subnet_remove_done (u : Cli.Util) (ip_range : string)
    (args : list string) (c : Cli.console) :
  Cli.is_valid_subnet u ip_range = true →
  Cli.get_subnet_used_list u ip_range = [] →
  "y"%string ∈ ip_range :: args →
  Subnet.opt_remove u (ip_range :: args) c
  = (Cli.Ok (),
     Cli.mk_console (Cli.stdin c)
       (Cli.trace c ++ [Cli.Delete (Cli.url_of u "subnets" ip_range);
                        Cli.Info ("removed subnet " +:+ ip_range) true])).
Proof.
  intros Hvalid Hfree Hy. unfold Subnet.opt_remove. cunfold. simpl.
  rewrite Hvalid, Hfree. simpl. rewrite bool_decide_eq_true_2 by done. simpl.
  by rewrite <- app_assoc.
Qed.

Lemma subnet_remove_done_witness :
  Subnet.opt_remove sample_util ["10.0.3.0/24"; "y"]%string (Cli.mk_console [] [])
  = (Cli.Ok (),
     Cli.mk_console []
       ([] ++ [Cli.Delete (Cli.url_of sample_util "subnets" "10.0.3.0/24");
               Cli.Info ("removed subnet " +:+ "10.0.3.0/24") true])).
Proof.
  apply (subnet_remove_done sample_util "10.0.3.0/24" ["y"%string] (Cli.mk_console [] [])).
  - vm_compute. reflexivity.
  - vm_compute. reflexivity.
  - right. left.
Defined.

(** One step of a command: the first action of a sequence, its result
    and the console it leaves. *)
Tactic Notation "cbind_step" hyp(H) ident(o) ident(c1) ident(E) :=
  match type of H with
  | (?m ≫= ?f) ?c = _ =>
      destruct (m c) as [[o|?] c1] eqn:E;
      [rewrite (cbind_ok m f c o c1 E) in H
      |rewrite (cbind_err m f c _ c1 E) in H]
  end.

(** A failed command that showed only prompts has posted nothing. *)
Ltac no_post H Hin Hp :=
  injection H as <- <-; apply Hp in Hin as [? [=]].

(** ** [Subnet.opt_create] *)

Section create.
Import Cli.

Lemma ask_frozen_find (frozen : string) (pending : list string) (shown : list act) :
  Subnet.ask_frozen frozen pending shown
  = match list_find (λ a, a = "y"%string ∨ a = "n"%string) (frozen :: pending) with
    | Some (i, answer) =>
        (Ok answer,
         mk_console (drop i pending)
           (shown ++ replicate i (Prompt "Is the subnet frozen? y/n>")))
    | None =>
        (Err EOFError,
         mk_console []
           (shown ++ replicate (S (length pending)) (Prompt "Is the subnet frozen? y/n>")))
    end.
Proof.
  revert frozen shown. induction pending as [|answer pending IH]; intros frozen shown.
  - cbn [Subnet.ask_frozen list_find].
    case_bool_decide as Hf; case_decide as Hd.
    + exfalso. destruct Hf as [? ?]. by destruct Hd.
    + done.
    + simpl. by rewrite app_nil_r.
    + exfalso. apply Hf. split; intros ->; apply Hd; auto.
  - cbn [Subnet.ask_frozen]. change (list_find ?P (frozen :: ?l))
      with (if decide (P frozen) then Some (0%nat, frozen)
            else prod_map S id <$> list_find P l).
    case_bool_decide as Hf; case_decide as Hd.
    + exfalso. destruct Hf as [? ?]. by destruct Hd.
    + rewrite IH. destruct (list_find _ (answer :: pending)) as [[i a]|]; simpl.
      * by rewrite <- app_assoc.
      * by rewrite <- app_assoc.
    + simpl. by rewrite app_nil_r.
    + exfalso. apply Hf. split; intros ->; apply Hd; auto.
Qed.

Lemma ask_frozen_trace frozen pending shown r c' :
  Subnet.ask_frozen frozen pending shown = (r, c') →
  (∀ a, a ∈ trace c' → a ∈ shown ∨ a = Prompt "Is the subnet frozen? y/n>")
  ∧ ∀ answer, r = Ok answer → answer = "y"%string ∨ answer = "n"%string.
Proof.
  rewrite ask_frozen_find.
  destruct (list_find _ _) as [[i answer]|] eqn:Hfind; intros [= <- <-]; cbn [trace].
  - split.
    + intros a [?|Ha]%elem_of_app; [by left|right].
      by apply elem_of_replicate_inv in Ha.
    + intros ? [= <-]. by apply list_find_Some in Hfind as (_ & ? & _).
  - split; [|done].
    intros a [?|Ha]%elem_of_app; [by left|right].
    by apply (elem_of_replicate_inv _ (S (length pending))) in Ha.
Qed.

(** X10. The question about [frozen] is asked again until the answer is [y] or
    [n]: the answers before it are dropped, and when the input ends first
    the command ends with [EOFError]. *)
Theorem frozen_question_repeats (frozen : string) (pending : list string)
    (shown : list act) :
  Subnet.ask_frozen frozen pending shown
  = match list_find (λ a, a = "y"%string ∨ a = "n"%string) (frozen :: pending) with
    | Some (i, answer) =>
        (Ok answer,
         mk_console (drop i pending)
           (shown ++ replicate i (Prompt "Is the subnet frozen? y/n>")))
    | None =>
        (Err EOFError,
         mk_console []
           (shown ++ replicate (S (length pending)) (Prompt "Is the subnet frozen? y/n>")))
    end.
Proof. apply ask_frozen_find. Qed.

Lemma arg_or_input_prompts args i prompt c r c1 :
  arg_or_input args i prompt c = (r, c1) →
  only_prompts c →
  only_prompts c1 ∧ ∀ o, r = Ok o → args !! i = Some o ∨ args !! i = None.
Proof.
  unfold arg_or_input, input. intros H Hc.
  destruct (args !! i) as [a|].
  - injection H as <- <-. split; [done|]. intros o [= <-]. by left.
  - assert (Hc1 : only_prompts (mk_console (tail (stdin c)) (trace c ++ [Prompt prompt]))).
    { intros a [Ha|Ha]%elem_of_app; [by apply Hc|].
      apply list_elem_of_singleton in Ha. by eexists. }
    destruct (stdin c) as [|line rest]; injection H as <- <-; (split; [exact Hc1|auto]).
Qed.

Lemma check_ok (b : bool) (msg : string) c r c1 :
  (if b then mret () else cli_warning msg) c = (r, c1) →
  c1 = c ∧ (r = Ok () → b = true).
Proof. destruct b; intros [= <- <-]; split; done. Qed.

Lemma check_not (b : bool) (msg : string) c r c1 :
  (if b then cli_warning msg else mret ()) c = (r, c1) →
  c1 = c ∧ (r = Ok () → b = false).
Proof. destruct b; intros [= <- <-]; split; done. Qed.

(** X11. [subnet create] posts only after its checks: the range is a valid
    subnet, the vlan is left empty (and sent as the empty string) or is an
    integer, the category and the location are left empty or are valid
    tags. The fourth argument, when given, is the category. *)
Theorem subnet_create_validated (u : Util) (args ins : list string)
    (r : result unit) (c' : console) (url : string) (kwargs : list (string * arg)) :
  Subnet.opt_create u args (mk_console ins []) = (r, c') →
  Post url kwargs ∈ trace c' →
  ∃ ip_range description vlan category location frozen,
    kwargs = [("range", AStr ip_range); ("description", AStr description);
              ("vlan", vlan); ("category", AStr category);
              ("location", AStr location); ("frozen", ABool frozen)]%string
    ∧ is_valid_subnet u ip_range = true
    ∧ (vlan = AStr EmptyString ∨ ∃ s n, s ≠ EmptyString ∧ int u s = Some n ∧ vlan = AInt n)
    ∧ (category = EmptyString ∨ is_valid_category_tag u category = true)
    ∧ (location = EmptyString ∨ is_valid_location_tag u location = true)
    ∧ (args !! 3%nat = Some category ∨ args !! 3%nat = None)
    ∧ url = url_of u "subnets" "".
Proof.
  unfold Subnet.opt_create. intros Hrun Hin.
  assert (Hp0 : only_prompts (mk_console ins [])).
  { intros a Ha. by apply elem_of_nil in Ha. }
  cbind_step Hrun ip_range c1 E1;
    destruct (arg_or_input_prompts _ _ _ _ _ _ E1 Hp0) as [Hp1 _];
    [|no_post Hrun Hin Hp1].
  cbind_step Hrun o2 c2 E2; destruct (check_ok _ _ _ _ _ E2) as [-> Hvalid];
    [|no_post Hrun Hin Hp1].
  destruct o2. specialize (Hvalid eq_refl).
  cbind_step Hrun description c3 E3;
    destruct (arg_or_input_prompts _ _ _ _ _ _ E3 Hp1) as [Hp3 _];
    [|no_post Hrun Hin Hp3].
  cbind_step Hrun vlan0 c4 E4;
    destruct (arg_or_input_prompts _ _ _ _ _ _ E4 Hp3) as [Hp4 _];
    [|no_post Hrun Hin Hp4].
  cbind_step Hrun vlan c5 E5.
  2:{ assert (c5 = c4) as ->.
      { case_bool_decide; [destruct (int u vlan0)|]; by injection E5. }
      no_post Hrun Hin Hp4. }
  assert (c5 = c4 ∧ (vlan = AStr EmptyString
            ∨ ∃ s n, s ≠ EmptyString ∧ int u s = Some n ∧ vlan = AInt n))
    as [-> Hvlan].
  { case_bool_decide as Hv.
    - destruct (int u vlan0) as [n|] eqn:Hint; [|done].
      injection E5 as <- <-. split; [done|]. right. by exists vlan0, n.
    - injection E5 as <- <-. split; [done|]. left. by rewrite Hv. }
  cbind_step Hrun category c6 E6;
    destruct (arg_or_input_prompts _ _ _ _ _ _ E6 Hp4) as [Hp6 Harg];
    [|no_post Hrun Hin Hp6].
  specialize (Harg category eq_refl).
  cbind_step Hrun o7 c7 E7; destruct (check_not _ _ _ _ _ E7) as [-> Hcat];
    [|no_post Hrun Hin Hp6].
  destruct o7. specialize (Hcat eq_refl).
  cbind_step Hrun location c8 E8;
    destruct (arg_or_input_prompts _ _ _ _ _ _ E8 Hp6) as [Hp8 _];
    [|no_post Hrun Hin Hp8].
  cbind_step Hrun o9 c9 E9; destruct (check_not _ _ _ _ _ E9) as [-> Hloc];
    [|no_post Hrun Hin Hp8].
  destruct o9. specialize (Hloc eq_refl).
  cbind_step Hrun frozen0 c10 E10;
    destruct (arg_or_input_prompts _ _ _ _ _ _ E10 Hp8) as [Hp10 _];
    [|no_post Hrun Hin Hp10].
  cbind_step Hrun frozen c11 E11;
    destruct (ask_frozen_trace _ _ _ _ _ E11) as [Htr _].
  2:{ injection Hrun as <- <-.
      apply Htr in Hin as [Hin|[=]]. by apply Hp10 in Hin as [? [=]]. }
  revert Hrun. cunfold. simpl. intros [= <- <-]. simpl in Hin.
  apply elem_of_app in Hin as [[Hin|Hin]%elem_of_app|Hin]; [| |in_trace Hin].
  { apply Htr in Hin as [Hin|[=]]. by apply Hp10 in Hin as [? [=]]. }
  in_trace Hin. injection Hin as -> ->.
  eexists ip_range, description, vlan, category, location, _.
  split; [reflexivity|]. split; [done|]. split; [done|].
  split.
  { destruct (decide (category = EmptyString)) as [|Hne]; [by left|right].
    rewrite bool_decide_eq_true_2 in Hcat by done. simpl in Hcat.
    by apply negb_false_iff. }
  split.
  { destruct (decide (location = EmptyString)) as [|Hne]; [by left|right].
    rewrite bool_decide_eq_true_2 in Hloc by done. simpl in Hloc.
    by apply negb_false_iff. }
  split; [done|reflexivity].
Qed.

Lemma subnet_create_validated_witness :
  ∃ ip_range description vlan category location frozen,
    [("range", AStr "10.0.3.0/24"); ("description", AStr "annex");
     ("vlan", AInt 12); ("category", AStr "lab");
     ("location", AStr ""); ("frozen", ABool true)]%string
    = [("range", AStr ip_range); ("description", AStr description);
       ("vlan", vlan); ("category", AStr category);
       ("location", AStr location); ("frozen", ABool frozen)]%string
    ∧ is_valid_subnet sample_util ip_range = true
    ∧ (vlan = AStr EmptyString
       ∨ ∃ s n, s ≠ EmptyString ∧ int sample_util s = Some n ∧ vlan = AInt n)
    ∧ (category = EmptyString ∨ is_valid_category_tag sample_util category = true)
    ∧ (location = EmptyString ∨ is_valid_location_tag sample_util location = true)
    ∧ (["10.0.3.0/24"; "annex"; "12"; "lab"]%string !! 3%nat = Some category
       ∨ ["10.0.3.0/24"; "annex"; "12"; "lab"]%string !! 3%nat = None)
    ∧ "http://localhost:8000/subnets/"%string = url_of sample_util "subnets" "".
Proof.
  apply (subnet_create_validated sample_util
           ["10.0.3.0/24"; "annex"; "12"; "lab"]%string ["";  "maybe"; "y"]%string
           (Subnet.opt_create sample_util ["10.0.3.0/24"; "annex"; "12"; "lab"]%string
              (mk_console [""; "maybe"; "y"]%string [])).1
           (Subnet.opt_create sample_util ["10.0.3.0/24"; "annex"; "12"; "lab"]%string
              (mk_console [""; "maybe"; "y"]%string [])).2).
  - vm_compute. reflexivity.
  - vm_compute. do 3 right. left.
Defined.

End create.

(** ** [Subnet.opt_set_reserved] *)

(** X12. [subnet set_reserved] takes the number from the prompt, whatever
    follows the subnet among the arguments: with the subnet found and an
    integer answer it patches [reserved] to that answer. *)
Theorem set_reserved_reads_prompt (u : Cli.Util) (ip_range subnet_range answer : string)
    (rest ins : list string) (n : Z) (shown : list Cli.act) :
  Cli.get_subnet_range u ip_range = inr subnet_range →
  Cli.int u answer = Some n →
  Subnet.opt_set_reserved u (ip_range :: rest) (Cli.mk_console (answer :: ins) shown)
  = (Cli.Ok (),
     Cli.mk_console ins
       (shown ++ [Cli.Prompt "Enter number of reserved hosts>";
                  Cli.Patch (Cli.url_of u "subnets" subnet_range)
                    [("reserved"%string, Cli.AInt n)];
                  Cli.Info ("updated reserved to '" +:+ Cli.str_of_Z n +:+ "' for "
                            +:+ subnet_range) true])).
Proof.
  intros Hsub Hint. unfold Subnet.opt_set_reserved. cunfold. simpl.
  rewrite Hsub. simpl. rewrite Hint. simpl. by rewrite <- !app_assoc.
Qed.

Lemma set_reserved_reads_prompt_witness :
  Subnet.opt_set_reserved sample_util ["10.0.0.0/16"; "7"]%string
    (Cli.mk_console ["3"%string] [])
  = (Cli.Ok (),
     Cli.mk_console []
       ([] ++ [Cli.Prompt "Enter number of reserved hosts>";
               Cli.Patch (Cli.url_of sample_util "subnets" "10.0.0.0/16")
                 [("reserved"%string, Cli.AInt 3)];
               Cli.Info ("updated reserved to '" +:+ Cli.str_of_Z 3 +:+ "' for "
                         +:+ "10.0.0.0/16") true])).
Proof.
  apply (set_reserved_reads_prompt sample_util "10.0.0.0/16" "10.0.0.0/16" "3"
           ["7"%string] [] 3 []).
  - vm_compute. reflexivity.
  - vm_compute. reflexivity.
Defined.

(** ** [Subnet.opt_set_vlan] and [Subnet.opt_set_category] *)

Section setters.
Import Cli.

Lemma lift_result {A} (x : error + A) c r c1 :
  lift x c = (r, c1) → c1 = c ∧ ∀ a, r = Ok a → x = inr a.
Proof.
  destruct x; intros [= <- <-]; split; try done. by intros ? [= ->].
Qed.

(** X13. [subnet set_vlan] with a vlan that is not an integer ends with the
    [ValueError] of [int], not with a warning as [set_reserved] does, and
    patches nothing. *)
Theorem set_vlan_value_error (u : Util) (ip_range subnet_range vlan : string)
    (rest : list string) (c : console) :
  get_subnet_range u ip_range = inr subnet_range →
  int u vlan = None →
  Subnet.opt_set_vlan u (ip_range :: vlan :: rest) c = (Err ValueError, c)
  ∧ ∀ ins, Subnet.opt_set_reserved u (ip_range :: vlan :: rest)
             (mk_console (vlan :: ins) (trace c))
           = (Err (CliWarning "Not a valid integer"),
              mk_console ins (trace c ++ [Prompt "Enter number of reserved hosts>"])).
Proof.
  intros Hsub Hint. unfold Subnet.opt_set_vlan, Subnet.opt_set_reserved.
  cunfold. simpl. rewrite Hsub. simpl. by rewrite Hint.
Qed.

Lemma set_vlan_value_error_witness :
  Subnet.opt_set_vlan sample_util ["10.0.0.0/16"; "ten"]%string (mk_console [] [])
  = (Err ValueError, mk_console [] [])
  ∧ ∀ ins, Subnet.opt_set_reserved sample_util ["10.0.0.0/16"; "ten"]%string
             (mk_console ("ten"%string :: ins) [])
           = (Err (CliWarning "Not a valid integer"),
              mk_console ins ([] ++ [Prompt "Enter number of reserved hosts>"])).
Proof.
  apply (set_vlan_value_error sample_util "10.0.0.0/16" "10.0.0.0/16" "ten" []
           (mk_console [] [])).
  - vm_compute. reflexivity.
  - vm_compute. reflexivity.
Defined.

(** X14. [subnet set_category] patches only the category of a subnet that was
    found, and only to a tag that [is_valid_category_tag] accepts. *)
Theorem set_category_validated (u : Util) (args ins : list string)
    (r : result unit) (c' : console) (url : string) (kwargs : list (string * arg)) :
  Subnet.opt_set_category u args (mk_console ins []) = (r, c') →
  Patch url kwargs ∈ trace c' →
  ∃ ip_range subnet_range category_tag,
    get_subnet_range u ip_range = inr subnet_range
    ∧ is_valid_category_tag u category_tag = true
    ∧ url = url_of u "subnets" subnet_range
    ∧ kwargs = [("category"%string, AStr category_tag)].
Proof.
  unfold Subnet.opt_set_category. intros Hrun Hin.
  cbind_step Hrun ip_range c1 E1;
    destruct (arg_or_input_prompts _ _ _ _ _ _ E1) as [Hp1 _];
    [by intros a Ha%elem_of_nil| |by intros a Ha%elem_of_nil|no_post Hrun Hin Hp1].
  cbind_step Hrun subnet_range c2 E2; destruct (lift_result _ _ _ _ E2) as [-> Hsub];
    [|no_post Hrun Hin Hp1].
  specialize (Hsub _ eq_refl).
  cbind_step Hrun category_tag c3 E3;
    destruct (arg_or_input_prompts _ _ _ _ _ _ E3 Hp1) as [Hp3 _];
    [|no_post Hrun Hin Hp3].
  cbind_step Hrun o4 c4 E4; destruct (check_ok _ _ _ _ _ E4) as [-> Hvalid];
    [|no_post Hrun Hin Hp3].
  destruct o4. specialize (Hvalid eq_refl).
  revert Hrun. cunfold. simpl. intros [= <- <-]. simpl in Hin.
  rewrite <- app_assoc in Hin.
  apply elem_of_app in Hin as [Hin|Hin].
  { by apply Hp3 in Hin as [? [=]]. }
  in_trace Hin. injection Hin as -> ->.
  by exists ip_range, subnet_range, category_tag.
Qed.

Lemma set_category_validated_witness :
  ∃ ip_range subnet_range category_tag,
    get_subnet_range sample_util ip_range = inr subnet_range
    ∧ is_valid_category_tag sample_util category_tag = true
    ∧ "http://localhost:8000/subnets/10.0.0.0/16"%string
      = url_of sample_util "subnets" subnet_range
    ∧ [("category"%string, AStr "office")] = [("category"%string, AStr category_tag)].
Proof.
  apply (set_category_validated sample_util ["10.0.0.0/16"%string] ["office"%string]
           (Subnet.opt_set_category sample_util ["10.0.0.0/16"%string]
              (mk_console ["office"%string] [])).1
           (Subnet.opt_set_category sample_util ["10.0.0.0/16"%string]
              (mk_console ["office"%string] [])).2).
  - vm_compute. reflexivity.
  - vm_compute. right. left.
Defined.

End setters.

(** ** [History.opt_redo] *)

Lemma split_no_sep (sep : ascii) (x : string) :
  Cli.has_char sep x = false → PyStr.split sep x = [x].
Proof.
  induction x as [|c x IH]; simpl; [done|].
  intros [Hc Hx]%orb_false_iff. apply bool_decide_eq_false in Hc.
  rewrite decide_False by done. by rewrite IH.
Qed.

Lemma split_at_sep (sep : ascii) (x s : string) :
  Cli.has_char sep x = false →
  PyStr.split sep (x +:+ String sep s) = x :: PyStr.split sep s.
Proof.
  induction x as [|c x IH]; intros Hx.
  - simpl. by rewrite decide_True.
  - simpl in Hx. apply orb_false_iff in Hx as [Hc Hx].
    apply bool_decide_eq_false in Hc.
    change (String c x +:+ String sep s) with (String c (x +:+ String sep s)).
    cbn [PyStr.split]. rewrite decide_False by done. by rewrite IH.
Qed.

(** X15. [history redo]: a number without a dot redoes the whole command
    (the request number is not passed); [c.r] redoes request [r] of
    command [c]; what follows a second dot is ignored. A part that is not
    an integer ends the command with [ValueError] and nothing redone. *)
Theorem redo_number_forms (u : Cli.Util) (command request further : string)
    (rest : list string) (c : Cli.console) :
  Cli.has_char "." command = false →
  Cli.has_char "." request = false →
  History.opt_redo u (command :: rest) c
  = match Cli.int u command with
    | Some n => (Cli.Ok (), Cli.mk_console (Cli.stdin c) (Cli.trace c ++ [Cli.Redo n None]))
    | None => (Cli.Err Cli.ValueError, c)
    end
  ∧ ∀ a, a = (command +:+ "." +:+ request)%string
         ∨ a = (command +:+ "." +:+ request +:+ "." +:+ further)%string →
    History.opt_redo u (a :: rest) c
    = match Cli.int u command, Cli.int u request with
      | Some n, Some m =>
          (Cli.Ok (),
           Cli.mk_console (Cli.stdin c) (Cli.trace c ++ [Cli.Redo n (Some m)]))
      | _, _ => (Cli.Err Cli.ValueError, c)
      end.
Proof.
  intros Hc Hr. split.
  - unfold History.opt_redo. rewrite (split_no_sep _ _ Hc). cunfold.
    by destruct (Cli.int u command).
  - intros a [->| ->]; unfold History.opt_redo.
    + change (command +:+ "." +:+ request) with (command +:+ String "." request).
      rewrite (split_at_sep _ _ _ Hc), (split_no_sep _ _ Hr). cunfold.
      destruct (Cli.int u command); [|done]. by destruct (Cli.int u request).
    + change (command +:+ "." +:+ request +:+ "." +:+ further)
        with (command +:+ String "." (request +:+ String "." further)).
      rewrite (split_at_sep _ _ _ Hc), (split_at_sep _ _ _ Hr).
      destruct (PyStr.split "." further) eqn:Hf; cunfold;
        (destruct (Cli.int u command); [|done]); by destruct (Cli.int u request).
Qed.

Lemma redo_number_forms_witness :
  History.opt_redo sample_util ["4"%string] (Cli.mk_console [] [])
  = match Cli.int sample_util "4" with
    | Some n => (Cli.Ok (), Cli.mk_console [] ([] ++ [Cli.Redo n None]))
    | None => (Cli.Err Cli.ValueError, Cli.mk_console [] [])
    end
  ∧ ∀ a, a = ("4" +:+ "." +:+ "2")%string
         ∨ a = ("4" +:+ "." +:+ "2" +:+ "." +:+ "9")%string →
    History.opt_redo sample_util [a] (Cli.mk_console [] [])
    = match Cli.int sample_util "4", Cli.int sample_util "2" with
      | Some n, Some m =>
          (Cli.Ok (), Cli.mk_console [] ([] ++ [Cli.Redo n (Some m)]))
      | _, _ => (Cli.Err Cli.ValueError, Cli.mk_console [] [])
      end.
Proof.
  apply (redo_number_forms sample_util "4" "2" "9" [] (Cli.mk_console [] []));
    reflexivity.
Defined.

(** ** [CommandBase] *)

Section command_base.
Import CommandBase.

Lemma matches_opt_prefix (name : string) :
  matches_opt name = true → ∃ rest, name = ("opt_" +:+ rest)%string.
Proof.
  unfold matches_opt, Re.one.
  destruct name as [|c1 [|c2 [|c3 [|c4 rest]]]]; simpl; try done;
    repeat (case_bool_decide; simpl; try done).
  intros _. subst. by exists rest.
Qed.

Lemma option_name (rest : string) :
  split_once "_" ("opt_" +:+ rest) !! 1%nat = Some rest.
Proof. reflexivity. Qed.

Lemma options_of_names (methods : list member) :
  Forall (λ m, ∃ rest, attr m = ("opt_" +:+ rest)%string) methods →
  ∃ os, options_of methods = Some os
        ∧ Forall2 (λ m o, attr m = ("opt_" +:+ o)%string) methods os.
Proof.
  induction 1 as [|m methods [rest Hm] _ (os & Hos & HF)].
  - by exists [].
  - exists (rest :: os). simpl. rewrite Hm, option_name, Hos.
    split; [done|]. by constructor.
Qed.

Lemma find_option_Some (methods : list member) (opt : string) (m : member) :
  find_option methods opt = Some m →
  m ∈ methods ∧ attr m = ("opt_" +:+ opt)%string.
Proof.
  induction methods as [|m' methods IH]; simpl; [done|].
  case_bool_decide as Hm.
  - intros [= <-]. split; [left|done].
  - intros [? ?]%IH. split; [by right|done].
Qed.

Lemma find_option_elem (methods : list member) (opt : string) (m : member) :
  m ∈ methods → attr m = ("opt_" +:+ opt)%string →
  ∃ m', find_option methods opt = Some m'.
Proof.
  induction 1 as [m methods|m m' methods _ IH]; intros Hm; simpl.
  - rewrite bool_decide_eq_true_2 by done. by eexists.
  - case_bool_decide; [by eexists|]. by apply IH.
Qed.

Lemma opt_inj (a b : string) : ("opt_" +:+ a)%string = ("opt_" +:+ b)%string → a = b.
Proof. cbn. intros [= H]. exact H. Qed.

(** X16. When option methods are listed under their own names, the names
    that [options] returns are exactly those that [method] resolves, and
    [method] returns an option method of the object named ["opt_"] and
    the option; for any other name it calls [cli_error]. *)
Theorem options_resolve (members : list member) :
  (∀ m, m ∈ members → _is_option m = true → attr m = __name__ m) →
  ∃ os, options members = Some os
    ∧ ∀ opt,
        (opt ∈ os ↔ ∃ m, method members opt = inl m)
        ∧ ∀ m, method members opt = inl m →
               m ∈ members ∧ _is_option m = true
               ∧ attr m = ("opt_" +:+ opt)%string.
Proof.
  intros Hnames.
  assert (Hpre : Forall (λ m, ∃ rest, attr m = ("opt_" +:+ rest)%string)
                   (_option_methods members)).
  { apply Forall_forall. intros m [Hopt Hm]%list_elem_of_filter.
    rewrite (Hnames m Hm Hopt). apply matches_opt_prefix.
    unfold _is_option in Hopt. by destruct (is_method m). }
  destruct (options_of_names _ Hpre) as (os & Hos & HF).
  exists os. split; [exact Hos|]. intros opt. unfold method. split.
  - split.
    + intros [i Hi]%list_elem_of_lookup.
      destruct (Forall2_lookup_r _ _ _ _ _ HF Hi) as (m & Hm & Hattr).
      apply list_elem_of_lookup_2 in Hm.
      destruct (find_option_elem _ opt m Hm Hattr) as [m' ->]. by eexists.
    + intros [m Hm].
      destruct (find_option (_option_methods members) opt) as [m'|] eqn:Hfind; [|done].
      apply find_option_Some in Hfind as [[i Hi]%list_elem_of_lookup Hattr].
      destruct (Forall2_lookup_l _ _ _ _ _ HF Hi) as (o & Ho & Hattr').
      rewrite Hattr in Hattr'. apply opt_inj in Hattr'. subst o.
      by apply list_elem_of_lookup_2 in Ho.
  - intros m Hm.
    destruct (find_option (_option_methods members) opt) as [m'|] eqn:Hfind; [|done].
    injection Hm as ->.
    apply find_option_Some in Hfind as [[? ?]%list_elem_of_filter ?]. done.
Qed.

Lemma options_resolve_witness :
  ∃ os, options sample_members = Some os
    ∧ ∀ opt,
        (opt ∈ os ↔ ∃ m, method sample_members opt = inl m)
        ∧ ∀ m, method sample_members opt = inl m →
               m ∈ sample_members ∧ _is_option m = true
               ∧ attr m = ("opt_" +:+ opt)%string.
Proof.
  apply (options_resolve sample_members).
  intros m Hm Hopt. unfold sample_members in Hm.
  repeat (apply elem_of_cons in Hm as [->|Hm]; [reflexivity || discriminate Hopt|]).
  by apply elem_of_nil in Hm.
Defined.

End command_base.

(** ** [Host.opt_a_remove] and [Host.opt_remove] *)

Section host.
Import Cli.

Lemma owns_elem_of (records : list string) (ip : string) :
  Host.owns records ip = true ↔ ip ∈ records.
Proof.
  induction records as [|rec records IH]; simpl.
  - split; [done|]. by intros ?%elem_of_nil.
  - rewrite elem_of_cons. case_bool_decide; [naive_solver|].
    rewrite IH. naive_solver.
Qed.

Lemma a_remove_reads (args ins : list string) (r : result (string * string)) c1 :
  match args with
  | name :: ip :: _ => mret (name, ip)
  | _ =>
      name ← arg_or_input args 0 "Enter host name> ";
      ip ← input "Enter ip> ";
      mret (name, ip)
  end (mk_console ins []) = (r, c1) →
  only_prompts c1.
Proof.
  intros E a Ha.
  destruct args as [|a0 [|a1 args]]; revert E; cunfold; simpl.
  - destruct ins as [|l1 [|l2 ins]]; simpl; intros [= <- <-];
      in_trace Ha; eauto.
  - destruct ins as [|l1 ins]; simpl; intros [= <- <-]; in_trace Ha; eauto.
  - intros [= <- <-]. in_trace Ha.
Qed.

(** X17. [host a_remove] deletes an address only when it is a valid IPv4
    address, the host is found, and the address is one of the host's. *)
Theorem a_remove_only_owned (u : Util) (args ins : list string)
    (r : result unit) (c' : console) (url : string) :
  Host.opt_a_remove u args (mk_console ins []) = (r, c') →
  Delete url ∈ trace c' →
  ∃ host ip info,
    is_valid_ipv4 u ip = true
    ∧ host_info_by_name u host = inr info
    ∧ ip ∈ ipaddress info
    ∧ url = url_of u "ipaddresses" ip.
Proof.
  unfold Host.opt_a_remove. intros Hrun Hin.
  cbind_step Hrun o1 c1 E1; pose proof (a_remove_reads _ _ _ _ E1) as Hp1;
    [|no_post Hrun Hin Hp1].
  destruct o1 as [host ip].
  cbind_step Hrun o2 c2 E2; destruct (check_ok _ _ _ _ _ E2) as [-> Hvalid];
    [|no_post Hrun Hin Hp1].
  destruct o2. specialize (Hvalid eq_refl).
  cbind_step Hrun info c3 E3; destruct (lift_result _ _ _ _ E3) as [-> Hinfo];
    [|no_post Hrun Hin Hp1].
  specialize (Hinfo _ eq_refl).
  cbind_step Hrun o4 c4 E4; destruct (check_ok _ _ _ _ _ E4) as [-> Hfound];
    [|no_post Hrun Hin Hp1].
  destruct o4. specialize (Hfound eq_refl). apply owns_elem_of in Hfound.
  revert Hrun. cunfold. simpl. intros [= <- <-]. simpl in Hin.
  rewrite <- app_assoc in Hin.
  apply elem_of_app in Hin as [Hin|Hin].
  { by apply Hp1 in Hin as [? [=]]. }
  in_trace Hin. injection Hin as ->. by exists host, ip, info.
Qed.

Lemma a_remove_only_owned_witness :
  ∃ host ip info,
    is_valid_ipv4 sample_util ip = true
    ∧ host_info_by_name sample_util host = inr info
    ∧ ip ∈ ipaddress info
    ∧ "http://localhost:8000/ipaddresses/10.0.0.6"%string
      = url_of sample_util "ipaddresses" ip.
Proof.
  apply (a_remove_only_owned sample_util ["mail"; "10.0.0.6"]%string []
           (Host.opt_a_remove sample_util ["mail"; "10.0.0.6"]%string (mk_console [] [])).1
           (Host.opt_a_remove sample_util ["mail"; "10.0.0.6"]%string (mk_console [] [])).2).
  - vm_compute. reflexivity.
  - vm_compute. left.
Defined.

Lemma for_each_aliases (u : Util) (host : string) (aliases : list string) c :
  for_each aliases (λ alias,
    emit (Delete (url_of u "hosts" alias));;
    cli_info ("deleted alias host " +:+ alias +:+ " when removing " +:+ host) false) c
  = (Ok (), mk_console (stdin c) (trace c ++ aliases ≫= Host.alias_removal u host)).
Proof.
  revert c. induction aliases as [|alias aliases IH]; intros [ins tr]; simpl.
  - by rewrite app_nil_r.
  - cunfold. simpl. rewrite IH. simpl. by rewrite <- !app_assoc.
Qed.

(** X18. Without [y] among the arguments, [host remove] deletes only a host
    that was found, has at most one address and has no alias; what it
    deletes is that host. *)
Theorem host_remove_needs_force (u : Util) (args ins : list string)
    (r : result unit) (c' : console) (url : string) :
  "y"%string ∉ args →
  Host.opt_remove u args (mk_console ins []) = (r, c') →
  Delete url ∈ trace c' →
  ∃ name_or_ip info,
    host_info_by_name_or_ip u name_or_ip = inr info
    ∧ (length (ipaddress info) ≤ 1)%nat
    ∧ aliases_of_host u (name info) = []
    ∧ url = url_of u "hosts" (name info).
Proof.
  unfold Host.opt_remove. intros Hy Hrun Hin.
  rewrite (bool_decide_eq_false_2 _ Hy) in Hrun. simpl negb in Hrun.
  cbv iota in Hrun.
  cbind_step Hrun name_or_ip c1 E1;
    destruct (arg_or_input_prompts _ _ _ _ _ _ E1) as [Hp1 _];
    [by intros a Ha%elem_of_nil| |by intros a Ha%elem_of_nil|no_post Hrun Hin Hp1].
  cbind_step Hrun info c2 E2; destruct (lift_result _ _ _ _ E2) as [-> Hinfo];
    [|no_post Hrun Hin Hp1].
  specialize (Hinfo _ eq_refl).
  cbind_step Hrun o3 c3 E3; destruct (check_not _ _ _ _ _ E3) as [-> Hlen];
    [|no_post Hrun Hin Hp1].
  destruct o3. specialize (Hlen eq_refl). rewrite andb_true_r in Hlen.
  apply bool_decide_eq_false in Hlen.
  destruct (aliases_of_host u (name info)) as [|alias aliases] eqn:Haliases.
  2:{ revert Hrun. cunfold. simpl. intros Hrun. no_post Hrun Hin Hp1. }
  revert Hrun. cunfold. simpl. intros [= <- <-]. simpl in Hin.
  rewrite <- app_assoc in Hin.
  apply elem_of_app in Hin as [Hin|Hin].
  { by apply Hp1 in Hin as [? [=]]. }
  in_trace Hin. injection Hin as ->.
  exists name_or_ip, info. repeat split; [done|lia|done].
Qed.

Lemma host_remove_needs_force_witness :
  ∃ name_or_ip info,
    host_info_by_name_or_ip sample_util name_or_ip = inr info
    ∧ (length (ipaddress info) ≤ 1)%nat
    ∧ aliases_of_host sample_util (name info) = []
    ∧ "http://localhost:8000/hosts/www.example.org"%string
      = url_of sample_util "hosts" (name info).
Proof.
  apply (host_remove_needs_force sample_util [] ["www"%string]
           (Host.opt_remove sample_util [] (mk_console ["www"%string] [])).1
           (Host.opt_remove sample_util [] (mk_console ["www"%string] [])).2).
  - by intros ?%elem_of_nil.
  - vm_compute. reflexivity.
  - vm_compute. right. left.
Defined.

(** X19. A host with several addresses, named as first argument and without
    [y]: the command stops before it deletes or reports anything, and
    its warning is the template itself, with the braces in place of the
    host's name. *)
Theorem host_remove_multiple_addresses (u : Util) (name_or_ip : string)
    (rest : list string) (info : host_info) (c : console) :
  host_info_by_name_or_ip u name_or_ip = inr info →
  (1 < length (ipaddress info))%nat →
  "y"%string ∉ name_or_ip :: rest →
  Host.opt_remove u (name_or_ip :: rest) c
  = (Err (CliWarning "{} has multiple ipaddresses, must force"), c).
Proof.
  intros Hinfo Hlen Hy. unfold Host.opt_remove.
  rewrite (bool_decide_eq_false_2 _ Hy).
  unfold arg_or_input. simpl lookup.
  rewrite (cbind_ok _ _ c name_or_ip c) by done.
  rewrite (cbind_ok _ _ c info c) by (by rewrite Hinfo).
  rewrite (bool_decide_eq_true_2 _ Hlen). reflexivity.
Qed.

Lemma host_remove_multiple_addresses_witness :
  Host.opt_remove sample_util ["mail"%string] (mk_console [] [])
  = (Err (CliWarning "{} has multiple ipaddresses, must force"), mk_console [] []).
Proof.
  apply (host_remove_multiple_addresses sample_util "mail" [] mail_host).
  - reflexivity.
  - simpl. lia.
  - by intros [[=]|?%elem_of_nil]%elem_of_cons.
Defined.

(** X20. With [y] among the arguments, [host remove] of a host that is found
    asks nothing and always succeeds: it deletes every alias of the
    host, in the order of [aliases_of_host], each followed by its
    message, and the host itself last. *)
Theorem host_remove_forced (u : Util) (name_or_ip : string)
    (rest : list string) (info : host_info) (c : console) :
  host_info_by_name_or_ip u name_or_ip = inr info →
  "y"%string ∈ name_or_ip :: rest →
  Host.opt_remove u (name_or_ip :: rest) c
  = (Ok (),
     mk_console (stdin c)
       (trace c
        ++ (aliases_of_host u (name info) ≫= Host.alias_removal u (name info))
        ++ [Delete (url_of u "hosts" (name info));
            Info ("removed " +:+ name info) true])).
Proof.
  intros Hinfo Hy. unfold Host.opt_remove.
  rewrite (bool_decide_eq_true_2 _ Hy). simpl negb. cbv iota.
  unfold arg_or_input. simpl lookup.
  rewrite (cbind_ok _ _ c name_or_ip c) by done.
  rewrite (cbind_ok _ _ c info c) by (by rewrite Hinfo).
  rewrite (cbind_ok _ _ c () c) by (by rewrite andb_false_r).
  destruct (aliases_of_host u (name info)) as [|alias aliases].
  - rewrite (cbind_ok _ _ c () c) by done. cunfold. simpl.
    by rewrite <- app_assoc.
  - erewrite cbind_ok by apply for_each_aliases.
    cunfold. simpl. by rewrite <- !app_assoc.
Qed.

Lemma host_remove_forced_witness :
  Host.opt_remove sample_util ["mail"; "y"]%string (mk_console [] [])
  = (Ok (),
     mk_console []
       ([] ++ (["smtp.example.org"; "imap.example.org"]%string
               ≫= Host.alias_removal sample_util "mail.example.org")
        ++ [Delete "http://localhost:8000/hosts/mail.example.org";
            Info "removed mail.example.org" true])).
Proof.
  apply (host_remove_forced sample_util "mail" ["y"%string] mail_host (mk_console [] [])).
  - reflexivity.
  - right. left.
Defined.

End host.
